(** * Inventory manager: a shallow embedding of [cleaned_inventory_system.py]

    The development follows the source file top to bottom.  [Module Py]
    holds the fragment of Python the program relies on (dynamic values,
    [isinstance], [str.strip], insertion-ordered dictionaries),
    [Module Json] the two calls it makes into the [json] library, and
    [Module Inventory] the methods of [InventoryManager].  Methods are
    written in state-passing style: they take the object (and, for the
    two methods that touch files, the world) before the call and give
    back what the call returned or raised together with the object after
    the call.

    Boundaries of the model.  A string is a sequence of code points
    0..255.  The table maps strings to integers, as the specification's
    data model has it; a file that holds JSON of another shape makes
    [load_data] leave the model ([Unmodelled]).  Integers are unbounded.
    The text of exception messages is not kept, only the class. *)

From Stdlib Require Import ZArith Lia Ascii String List Bool.
From Stdlib Require Import Decimal DecimalString DecimalZ.
From stdpp Require Import base option list strings gmap.

Local Open Scope string_scope.
Local Open Scope Z_scope.

(* ===================================================================== *)
(** ** The Python fragment *)
(* ===================================================================== *)

Module Py.

(** Dynamic values that reach the methods as arguments.  [bool] is a
    subclass of [int] in Python, so [VBool] passes [isinstance(_, int)]
    and counts as 0 or 1.  A float is kept as its 64-bit pattern: the
    program never computes with one, it only rejects it.  All five classes
    are hashable. *)
Inductive value : Type :=
  | VNone
  | VBool (b : bool)
  | VInt (z : Z)
  | VFloat (bits : Z)
  | VStr (s : string).

(** The exceptions the program raises or lets through. *)
Inductive exn : Type :=
  | TypeError
  | ValueError
  | KeyError
  | OSError            (* IOError is an alias of OSError *)
  | JSONDecodeError.

(** What a call does: it returns a value or raises. *)
Inductive outcome (A : Type) : Type :=
  | Return (a : A)
  | Raise (e : exn).
Arguments Return {A} a.
Arguments Raise {A} e.

(** [isinstance(v, str)] *)
Definition isinstance_str (v : value) : bool :=
  match v with VStr _ => true | _ => false end.

(** [isinstance(v, int)] *)
Definition isinstance_int (v : value) : bool :=
  match v with VInt _ | VBool _ => true | _ => false end.

(** The number an instance of [int] stands for in arithmetic and
    comparisons. *)
Definition int_of (v : value) : Z :=
  match v with
  | VInt z => z
  | VBool true => 1
  | _ => 0
  end.

(** [c.isspace()] on the code points 0..255. *)
Definition isspace (c : ascii) : bool :=
  let n := N_of_ascii c in
  ((9 <=? n) && (n <=? 13) || (28 <=? n) && (n <=? 32)
   || (n =? 133) || (n =? 160))%N.

(** [s.lstrip()] *)
Fixpoint lstrip (s : string) : string :=
  match s with
  | EmptyString => EmptyString
  | String c s' => if isspace c then lstrip s' else s
  end.

(** [s[::-1]] *)
Fixpoint reverse (acc s : string) : string :=
  match s with
  | EmptyString => acc
  | String c s' => reverse (String c acc) s'
  end.

(** [s.rstrip()] *)
Definition rstrip (s : string) : string :=
  reverse EmptyString (lstrip (reverse EmptyString s)).

(** [s.strip()] *)
Definition strip (s : string) : string := rstrip (lstrip s).

(** Truth value of a string: [bool(s)]. *)
Definition truthy (s : string) : bool :=
  match s with EmptyString => false | String _ _ => true end.

(** [str(z)] for an [int]. *)
Definition str_of_Z (z : Z) : string := NilZero.string_of_int (Z.to_int z).

(** [f"{v}"] for the values that can be a validated quantity. *)
Definition format_int (v : value) : string :=
  match v with
  | VBool true => "True"
  | VBool false => "False"
  | _ => str_of_Z (int_of v)
  end.

(** *** Dictionaries

    A [dict] keeps its items in insertion order: assigning to a key that
    is present keeps the key's place, a new key goes to the end.  The
    mapping is a list of items whose keys are pairwise distinct. *)
Definition dict : Type := list (string * Z).

(** [d.get(k)], as an option. *)
Fixpoint lookup (k : string) (d : dict) : option Z :=
  match d with
  | [] => None
  | (k', v) :: d' => if String.eqb k k' then Some v else lookup k d'
  end.

(** [d.get(k, default)] *)
Definition get (d : dict) (k : string) (default : Z) : Z :=
  match lookup k d with Some v => v | None => default end.

(** [d[k] = v] *)
Fixpoint setitem (d : dict) (k : string) (v : Z) : dict :=
  match d with
  | [] => [(k, v)]
  | (k', v') :: d' =>
      if String.eqb k k' then (k', v) :: d' else (k', v') :: setitem d' k v
  end.

(** [del d[k]]: the item under [k] goes; a well-formed dictionary holds
    at most one. *)
Fixpoint delitem (d : dict) (k : string) : dict :=
  match d with
  | [] => []
  | (k', v') :: d' =>
      if String.eqb k k' then delitem d' k else (k', v') :: delitem d' k
  end.

(** [k in d] for an arbitrary hashable [k]: the keys are strings, and a
    string compares unequal to a value of any other class. *)
Definition contains (d : dict) (k : value) : bool :=
  match k with
  | VStr s => match lookup s d with Some _ => true | None => false end
  | _ => false
  end.

(** [d[k]] for a key known to be in [d]. *)
Definition getitem (d : dict) (k : value) : Z :=
  match k with
  | VStr s => get d s 0
  | _ => 0
  end.

(** Keys are pairwise distinct. *)
Definition wf (d : dict) : Prop := NoDup (map fst d).

End Py.

(* ===================================================================== *)
(** ** The [json] codec

    [json.dump(obj, f, indent=2)] on a dictionary of integers, and
    [json.load(f)] on an arbitrary text, after CPython's [json.encoder]
    and [json.decoder].  A text is a string of code points 0..255. *)
(* ===================================================================== *)

Module Json.
Import Py.

Local Open Scope char_scope.

(** *** Encoder *)

(** One lower-case hexadecimal digit, as ['{0:04x}'.format] prints it. *)
Definition hex_digit (n : N) : ascii :=
  match n with
  | 0 => "0" | 1 => "1" | 2 => "2" | 3 => "3" | 4 => "4" | 5 => "5"
  | 6 => "6" | 7 => "7" | 8 => "8" | 9 => "9" | 10 => "a" | 11 => "b"
  | 12 => "c" | 13 => "d" | 14 => "e" | _ => "f"
  end%N.

(** The replacement [encode_basestring_ascii] makes for one character:
    [ESCAPE_DCT] for the quote, the backslash and the five short
    escapes, [\u00xx] for everything else outside [' '..'~']. *)
Definition escape_char (c : ascii) : string :=
  match c with
  | "034" => String "\" (String "034" EmptyString)
  | "\" => String "\" (String "\" EmptyString)
  | "008" => String "\" (String "b" EmptyString)
  | "012" => String "\" (String "f" EmptyString)
  | "010" => String "\" (String "n" EmptyString)
  | "013" => String "\" (String "r" EmptyString)
  | "009" => String "\" (String "t" EmptyString)
  | _ =>
      let n := N_of_ascii c in
      if ((32 <=? n) && (n <=? 126))%N then String c EmptyString
      else String "\" (String "u" (String "0" (String "0"
             (String (hex_digit (n / 16)) (String (hex_digit (n mod 16))
                EmptyString)))))
  end.

Fixpoint escape (s : string) : string :=
  match s with
  | EmptyString => EmptyString
  | String c s' => (escape_char c ++ escape s')%string
  end.

(** [encode_basestring_ascii(s)] *)
Definition encode_basestring_ascii (s : string) : string :=
  String "034" (escape s ++ String "034" EmptyString)%string.

(** ['\n' + indent * level] at level 1 with [indent=2]. *)
Definition newline_indent : string := String "010" "  ".

(** One [key: value] member. *)
Definition encode_item (item : string * Z) : string :=
  (encode_basestring_ascii (fst item) ++ ": " ++ str_of_Z (snd item))%string.

(** The members after the first, each behind the item separator
    [',' + newline_indent]. *)
Fixpoint encode_more (items : dict) : string :=
  match items with
  | [] => EmptyString
  | item :: items' =>
      ("," ++ newline_indent ++ encode_item item ++ encode_more items')%string
  end.

(** [json.dumps(d, indent=2)]: what [json.dump] writes, chunk after
    chunk. *)
Definition dumps (d : dict) : string :=
  match d with
  | [] => "{}"%string
  | item :: items =>
      ("{" ++ newline_indent ++ encode_item item ++ encode_more items
         ++ String "010" "}")%string
  end.

(** *** Decoder *)

(** What the scanner reports. [Starved] is the recursion budget running
    out; [decode_never_starves] shows the budget [loads] hands out is
    never used up. *)
Inductive scan (A : Type) : Type :=
  | Got (a : A) (rest : string)
  | Bad
  | Starved.
Arguments Got {A} a rest.
Arguments Bad {A}.
Arguments Starved {A}.

(** The decoded value, as far as the inventory can hold it: an integer,
    an object (with its mapping when every key stays within the code
    points 0..255 and every member is an integer), or any other value. *)
Inductive doc : Type :=
  | DInt (z : Z)
  | DObject (members : option dict)
  | DOther.

(** [WHITESPACE]: space, tab, line feed, carriage return. *)
Definition is_ws (c : ascii) : bool :=
  match c with
  | " " | "009" | "010" | "013" => true
  | _ => false
  end.

Fixpoint skip_ws (s : string) : string :=
  match s with
  | EmptyString => EmptyString
  | String c s' => if is_ws c then skip_ws s' else s
  end.

(** [s[end:end+1] == c]: what follows [c] when [s] starts with it. *)
Definition expect (c : ascii) (s : string) : option string :=
  match s with
  | String c' s' => if Ascii.eqb c c' then Some s' else None
  | EmptyString => None
  end.

(** Value of one hexadecimal digit, either case. *)
Definition hex_value (c : ascii) : option N :=
  let n := N_of_ascii c in
  if ((48 <=? n) && (n <=? 57))%N then Some (n - 48)%N
  else if ((97 <=? n) && (n <=? 102))%N then Some (n - 87)%N
  else if ((65 <=? n) && (n <=? 70))%N then Some (n - 55)%N
  else None.

(** [_decode_uXXXX]: the code point of four hexadecimal digits. *)
Definition decode_uXXXX (h1 h2 h3 h4 : ascii) : option N :=
  match hex_value h1, hex_value h2, hex_value h3, hex_value h4 with
  | Some a, Some b, Some c, Some d => Some (((a * 16 + b) * 16 + c) * 16 + d)%N
  | _, _, _, _ => None
  end.

(** A character in front of the text decoded so far; [None] once a
    code point above 255 has been met. *)
Definition push (c : ascii) (r : scan (option string)) : scan (option string) :=
  match r with
  | Got s rest => Got (option_map (String c) s) rest
  | Bad => Bad
  | Starved => Starved
  end.

Definition push_code (n : N) (r : scan (option string)) : scan (option string) :=
  match r with
  | Got s rest =>
      Got (if (n <? 256)%N then option_map (String (ascii_of_N n)) s else None)
          rest
  | Bad => Bad
  | Starved => Starved
  end.

(** The character a one-letter escape stands for. *)
Definition unescape (e : ascii) : option ascii :=
  match e with
  | "034" => Some "034"
  | "\" => Some "\"
  | "/" => Some "/"
  | "b" => Some "008"
  | "f" => Some "012"
  | "n" => Some "010"
  | "r" => Some "013"
  | "t" => Some "009"
  | _ => None
  end.

(** [scanstring(s, end, strict=True)], from just behind the opening
    quote. *)
Fixpoint scanstring (s : string) : scan (option string) :=
  match s with
  | EmptyString => Bad                     (* unterminated string *)
  | String c s1 =>
      if Ascii.eqb c "034" then Got (Some EmptyString) s1
      else if Ascii.eqb c "\" then
        match s1 with
        | EmptyString => Bad
        | String e s2 =>
            if Ascii.eqb e "u" then
              match s2 with
              | String h1 (String h2 (String h3 (String h4 s3))) =>
                  match decode_uXXXX h1 h2 h3 h4 with
                  | Some n => push_code n (scanstring s3)
                  | None => Bad            (* invalid \uXXXX escape *)
                  end
              | _ => Bad
              end
            else
              match unescape e with
              | Some c' => push c' (scanstring s2)
              | None => Bad                (* invalid \escape *)
              end
        end
      else if (N_of_ascii c <? 32)%N then Bad   (* invalid control character *)
      else push c (scanstring s1)
  end.

(** The longest run of decimal digits at the front of [s]. *)
Fixpoint digits (s : string) : uint * string :=
  match s with
  | EmptyString => (Nil, EmptyString)
  | String c s' =>
      let '(u, rest) := digits s' in
      match uint_of_char c (Some u) with
      | Some u' => (u', rest)
      | None => (Nil, s)
      end
  end.

(** The integer part of [NUMBER_RE]: an optional minus sign, then
    either a single 0 or a run of digits that starts with 1..9. *)
Definition unsigned_part (s : string) : option (uint * string) :=
  match expect "0" s with
  | Some rest => Some (D0 Nil, rest)
  | None =>
      match digits s with
      | (Nil, _) => None
      | (u, rest) => Some (u, rest)
      end
  end.

Definition integer_part (s : string) : option (int * string) :=
  match expect "-" s with
  | Some s' =>
      match unsigned_part s' with
      | Some (u, rest) => Some (Neg u, rest)
      | None => None
      end
  | None =>
      match unsigned_part s with
      | Some (u, rest) => Some (Pos u, rest)
      | None => None
      end
  end.

(** At least one digit, giving what follows. *)
Definition some_digits (s : string) : option string :=
  match digits s with
  | (Nil, _) => None
  | (_, rest) => Some rest
  end.

(** The optional fraction: a dot and at least one digit. *)
Definition fraction_part (s : string) : option string :=
  match expect "." s with
  | Some s' => some_digits s'
  | None => None
  end.

(** An optional sign. *)
Definition skip_sign (s : string) : string :=
  match expect "+" s with
  | Some s' => s'
  | None => match expect "-" s with Some s' => s' | None => s end
  end.

(** The optional exponent: e or E, an optional sign, at least one
    digit. *)
Definition exponent_part (s : string) : option string :=
  match expect "e" s with
  | Some s' => some_digits (skip_sign s')
  | None =>
      match expect "E" s with
      | Some s' => some_digits (skip_sign s')
      | None => None
      end
  end.

(** [match_number]: an [int] when neither fraction nor exponent
    matched, a [float] otherwise. *)
Definition match_number (s : string) : option (doc * string) :=
  match integer_part s with
  | None => None
  | Some (i, rest) =>
      match fraction_part rest with
      | Some rest1 =>
          match exponent_part rest1 with
          | Some rest2 => Some (DOther, rest2)
          | None => Some (DOther, rest1)
          end
      | None =>
          match exponent_part rest with
          | Some rest2 => Some (DOther, rest2)
          | None => Some (DInt (Z.of_int i), rest)
          end
      end
  end.

(** [s[idx:idx+len(word)] == word], giving what follows. *)
Fixpoint after_word (word s : string) : option string :=
  match word with
  | EmptyString => Some s
  | String c word' =>
      match s with
      | String c' s' => if Ascii.eqb c c' then after_word word' s' else None
      | EmptyString => None
      end
  end.

(** The scalars of [_scan_once] other than strings. *)
Definition scan_scalar (s : string) : scan doc :=
  match after_word "null" s with Some rest => Got DOther rest | None =>
  match after_word "true" s with Some rest => Got DOther rest | None =>
  match after_word "false" s with Some rest => Got DOther rest | None =>
  match match_number s with Some (v, rest) => Got v rest | None =>
  match after_word "NaN" s with Some rest => Got DOther rest | None =>
  match after_word "Infinity" s with Some rest => Got DOther rest | None =>
  match after_word "-Infinity" s with Some rest => Got DOther rest | None =>
  Bad                                      (* expecting value *)
  end end end end end end end.

(** Where the scanner stands: at a value ([_scan_once]), at an element of
    an array ([JSONArray]), or behind the opening quote of a member's
    key ([JSONObject], with the pairs read so far). *)
Inductive task : Type :=
  | AtValue
  | AtElement
  | AtMember (pairs : option dict).

(** The pair list with one more member; [dict(pairs)] assigns them in
    order. *)
Definition add_pair (pairs : option dict) (key : option string) (v : doc)
  : option dict :=
  match pairs, key, v with
  | Some d, Some k, DInt z => Some (setitem d k z)
  | _, _, _ => None
  end.

Fixpoint scan_once (budget : nat) (t : task) (s : string) : scan doc :=
  match budget with
  | O => Starved
  | S budget =>
      match t with
      | AtValue =>
          match expect "034" s with
          | Some s' =>
              match scanstring s' with
              | Got _ rest => Got DOther rest
              | Bad => Bad
              | Starved => Starved
              end
          | None =>
          match expect "{" s with
          | Some s' =>
              match expect "}" (skip_ws s') with
              | Some rest => Got (DObject (Some [])) rest
              | None =>
                  match expect "034" (skip_ws s') with
                  | Some s'' => scan_once budget (AtMember (Some [])) s''
                  | None => Bad            (* expecting property name *)
                  end
              end
          | None =>
          match expect "[" s with
          | Some s' =>
              match expect "]" (skip_ws s') with
              | Some rest => Got DOther rest
              | None => scan_once budget AtElement (skip_ws s')
              end
          | None => scan_scalar s
          end end end
      | AtElement =>
          match scan_once budget AtValue s with
          | Got _ rest =>
              match expect "]" (skip_ws rest) with
              | Some rest' => Got DOther rest'
              | None =>
                  match expect "," (skip_ws rest) with
                  | Some rest' => scan_once budget AtElement (skip_ws rest')
                  | None => Bad            (* expecting ',' delimiter *)
                  end
              end
          | Bad => Bad
          | Starved => Starved
          end
      | AtMember pairs =>
          match scanstring s with
          | Got key rest =>
              match expect ":" (skip_ws rest) with
              | Some rest1 =>
                  match scan_once budget AtValue (skip_ws rest1) with
                  | Got v rest2 =>
                      let pairs' := add_pair pairs key v in
                      match expect "}" (skip_ws rest2) with
                      | Some rest3 => Got (DObject pairs') rest3
                      | None =>
                          match expect "," (skip_ws rest2) with
                          | Some rest3 =>
                              match expect "034" (skip_ws rest3) with
                              | Some rest4 =>
                                  scan_once budget (AtMember pairs') rest4
                              | None => Bad (* expecting property name *)
                              end
                          | None => Bad    (* expecting ',' delimiter *)
                          end
                      end
                  | Bad => Bad
                  | Starved => Starved
                  end
              | None => Bad                (* expecting ':' delimiter *)
              end
          | Bad => Bad
          | Starved => Starved
          end
      end
  end.

(** [dict(pairs)]: the pairs assigned one after the other. *)
Definition assign (items acc : dict) : dict :=
  fold_left (fun d item => setitem d (fst item) (snd item)) items acc.

(** What [json.loads] does with a text. *)
Inductive decoded : Type :=
  | Table (d : dict)     (* a dictionary of integers *)
  | Foreign              (* any other value: outside the inventory's data model *)
  | Malformed.           (* raises [JSONDecodeError] *)

(** Enough for any text: two units for each character and one to
    start. *)
Definition budget_for (s : string) : nat := (2 * String.length s + 1)%nat.

(** [JSONDecoder.decode]: leading whitespace, one value, trailing
    whitespace, end of text (else "Extra data"). *)
Definition loads (s : string) : decoded :=
  match scan_once (budget_for s) AtValue (skip_ws s) with
  | Got v rest =>
      match skip_ws rest with
      | EmptyString =>
          match v with
          | DObject (Some d) => Table d
          | _ => Foreign
          end
      | _ => Malformed
      end
  | Bad => Malformed
  | Starved => Malformed
  end.

(** *** Notions the facts below are stated with *)

(** The text of one member behind the opening quote of its key, up to
    [more]. *)
Definition member_text (k : string) (v : Z) (more : string) : string :=
  (escape k ++ String "034" (String ":" (String " " (str_of_Z v ++ more))))%string.

(** The first character of [s], if any, is no decimal digit. *)
Definition no_digit_ahead (s : string) : Prop := digits s = (Nil, s).

(** Where a number ends: no digit, no fraction and no exponent follow. *)
Definition number_stops (s : string) : Prop :=
  no_digit_ahead s /\ fraction_part s = None /\ exponent_part s = None.

(** What [str] starts an integer with: a digit or a minus sign. *)
Definition number_head (c : ascii) : bool :=
  match c with
  | "-" | "0" | "1" | "2" | "3" | "4" | "5" | "6" | "7" | "8" | "9" => true
  | _ => false
  end.

(** The budget a task needs on a text. *)
Definition needed (t : task) (s : string) : nat :=
  match t with
  | AtValue => 2 * String.length s + 1
  | AtElement | AtMember _ => 2 * String.length s + 2
  end.

End Json.

(* ===================================================================== *)
(** ** [class InventoryManager] *)
(* ===================================================================== *)

Module Inventory.
Import Py.

(** The object: its only attribute is [stock_data]. *)
Record InventoryManager : Type := mk { stock_data : dict }.

(** [__init__] *)
Definition init : InventoryManager := {| stock_data := [] |}.

(** What a method call leaves behind. *)
Record call (A : Type) : Type := Call {
  result : outcome A;
  after : InventoryManager
}.
Arguments Call {A} result after.
Arguments result {A} c.
Arguments after {A} c.

(** [add_item(self, item, qty, logs=None)].  [now] is the rendering of
    [datetime.now()] at the call.  The third component is the list
    [logs] names when the call ends (the fresh local list when [logs] was
    left out). *)
Definition add_item (self : InventoryManager) (now : string)
    (item qty : value) (logs : option (list string))
  : call bool * list string :=
  let logs := match logs with None => [] | Some l => l end in
  match item with
  | VStr name =>
      if negb (truthy (strip name)) then (Call (Raise ValueError) self, logs)
      else if negb (isinstance_int qty) then (Call (Raise TypeError) self, logs)
      else if int_of qty <? 0 then (Call (Raise ValueError) self, logs)
      else
        let stock := setitem (stock_data self) name
                       (get (stock_data self) name 0 + int_of qty) in
        let log_entry := now +:+ ": Added " +:+ format_int qty +:+ " of " +:+ name in
        (Call (Return true) {| stock_data := stock |}, (logs ++ [log_entry])%list)
  | _ => (Call (Raise TypeError) self, logs)
  end.

(** [remove_item(self, item, qty)] *)
Definition remove_item (self : InventoryManager) (item qty : value)
  : call bool :=
  if negb (isinstance_int qty) || (int_of qty <? 0)
  then Call (Raise ValueError) self
  else if negb (contains (stock_data self) item)
  then Call (Raise KeyError) self
  else
    match item with
    | VStr name =>
        let stock := setitem (stock_data self) name
                       (get (stock_data self) name 0 - int_of qty) in
        if get stock name 0 <=? 0
        then Call (Return true) {| stock_data := delitem stock name |}
        else Call (Return true) {| stock_data := stock |}
    | _ => Call (Raise KeyError) self   (* no key is of another class *)
    end.

(** [get_qty(self, item)] *)
Definition get_qty (self : InventoryManager) (item : value) : call Z :=
  if negb (contains (stock_data self) item)
  then Call (Raise KeyError) self
  else Call (Return (getitem (stock_data self) item)) self.

(** [check_low_items(self, threshold=5)]: the loop appends to [result]
    while it walks [stock_data.items()]. *)
Definition check_low_items (self : InventoryManager) (threshold : option Z)
  : call (list string) :=
  let threshold := match threshold with None => 5 | Some t => t end in
  let result :=
    fold_left
      (fun result '(item, quantity) =>
         if quantity <? threshold then (result ++ [item])%list else result)
      (stock_data self) [] in
  Call (Return result) self.

(** *** Persistence

    The methods below also act on what lies outside the object: the
    files and the standard output. *)

(** What [open] finds at a path.  A path the file table does not
    mention names no file, and one can be created there. *)
Inductive node : Type :=
  | File (text : string)   (* a regular file that can be read and written *)
  | Denied                 (* [open] raises an [OSError] other than
                              [FileNotFoundError]: a directory, no permission *)
  | Orphan.                (* a directory on the way is missing: [open]
                              raises [FileNotFoundError] in either mode *)

(** The three messages the class prints; the text of the exception at
    the end of the two error messages is left out. *)
Inductive line : Type :=
  | Warning_not_found (file : string)
      (* Warning: File '{file}' not found. Starting with empty inventory. *)
  | Error_invalid_json (file : string)
      (* Error: Invalid JSON in file '{file}': {e} *)
  | Error_saving (file : string).
      (* Error saving to file '{file}': {e} *)

Record world : Type := World {
  files : gmap string node;
  stdout : list line
}.

(** [print(l)] *)
Definition print (l : line) (w : world) : world :=
  {| files := files w; stdout := (stdout w ++ [l])%list |}.

(** [f.write(text)] on a file just opened for writing. *)
Definition write (file text : string) (w : world) : world :=
  {| files := <[file := File text]> (files w); stdout := stdout w |}.

(** A call of [load_data] either completes within the data model or
    assigns [stock_data] a value that is no dictionary of integers (the
    text was JSON of another shape); nothing is said about the object
    from then on. *)
Inductive loading : Type :=
  | Completed (c : call unit) (w : world)
  | Unmodelled.

(** The default of the [file] parameter of both methods. *)
Definition default_file : string := "inventory.json".

(** [load_data(self, file="inventory.json")] *)
Definition load_data (self : InventoryManager) (w : world)
    (file : option string) : loading :=
  let file := match file with None => default_file | Some f => f end in
  match files w !! file with
  | Some (File text) =>
      match Json.loads text with
      | Json.Table d => Completed (Call (Return tt) {| stock_data := d |}) w
      | Json.Foreign => Unmodelled
      | Json.Malformed =>
          Completed (Call (Raise JSONDecodeError) self)
                    (print (Error_invalid_json file) w)
      end
  | Some Denied => Completed (Call (Raise OSError) self) w
  | Some Orphan | None =>
      Completed (Call (Return tt) {| stock_data := [] |})
                (print (Warning_not_found file) w)
  end.

(** [save_data(self, file="inventory.json")] *)
Definition save_data (self : InventoryManager) (w : world)
    (file : option string) : call unit * world :=
  let file := match file with None => default_file | Some f => f end in
  match files w !! file with
  | Some Denied | Some Orphan =>
      (Call (Raise OSError) self, print (Error_saving file) w)
  | Some (File _) | None =>
      (Call (Return tt) self, write file (Json.dumps (stock_data self)) w)
  end.

(** *** Sequences of calls

    A caller that goes on after an exception finds the object as the
    failed call left it. *)
Inductive op : Type :=
  | AddItem (now : string) (item qty : value) (logs : option (list string))
  | RemoveItem (item qty : value)
  | GetQty (item : value)
  | CheckLowItems (threshold : option Z)
  | LoadData (file : option string)
  | SaveData (file : option string).

(** One call; [None] when it leaves the data model. *)
Definition step (st : InventoryManager * world) (o : op)
  : option (InventoryManager * world) :=
  let '(self, w) := st in
  match o with
  | AddItem now item qty logs =>
      Some (after (fst (add_item self now item qty logs)), w)
  | RemoveItem item qty => Some (after (remove_item self item qty), w)
  | GetQty item => Some (after (get_qty self item), w)
  | CheckLowItems threshold => Some (after (check_low_items self threshold), w)
  | LoadData file =>
      match load_data self w file with
      | Completed c w' => Some (after c, w')
      | Unmodelled => None
      end
  | SaveData file =>
      let '(c, w') := save_data self w file in Some (after c, w')
  end.

Fixpoint run (st : InventoryManager * world) (ops : list op)
  : option (InventoryManager * world) :=
  match ops with
  | [] => Some st
  | o :: ops' =>
      match step st o with
      | Some st' => run st' ops'
      | None => None
      end
  end.

(** *** Predicates of the specification *)

(** The name is non-empty after trimming whitespace. *)
Definition valid_name (name : string) : Prop := truthy (strip name) = true.

(** The table invariant as the specification words it. *)
Definition positive_stock (d : dict) : Prop :=
  Forall (fun item => valid_name (fst item) /\ 0 < snd item) d.

(** The invariant the methods keep. *)
Definition nonnegative_stock (d : dict) : Prop :=
  Forall (fun item => valid_name (fst item) /\ 0 <= snd item) d.

(** Every regular file is malformed or holds a table that fits
    [nonnegative_stock]. *)
Definition files_fit (w : world) : Prop :=
  forall file text, files w !! file = Some (File text) ->
  match Json.loads text with
  | Json.Table d => nonnegative_stock d
  | Json.Foreign => False
  | Json.Malformed => True
  end.

(** The path names no file. *)
Definition no_file (w : world) (file : string) : Prop :=
  files w !! file = None \/ files w !! file = Some Orphan.

(** *** The report

    [print_data(self)]: the arguments of the successive calls of
    [print], one line each; the object is only read. *)
Definition report_line (item : string * Z) : string :=
  fst item +:+ " -> " +:+ str_of_Z (snd item).

Definition print_data (self : InventoryManager) : call unit * list string :=
  let body :=
    match stock_data self with
    | [] => ["Inventory is empty"]
    | items => map report_line items
    end in
  (Call (Return tt) self,
   ([String "010" "=== Items Report ==="] ++ body
      ++ ["====================" +:+ String "010" EmptyString])%list).

(** *** The demonstration, [main]

    What [main] itself prints is kept by the statement that printed it
    (the check mark or the cross in front and the text of an exception
    left out); what the class prints on the way appears under [Class]
    and [Report], in the order of the output. *)
Inductive said : Type :=
  | Class (l : line)
  | Banner                        (* === Inventory System Demo === *)
  | Added_apples                  (* Added 10 apples *)
  | Error_adding_apples           (* Error adding apples: {e} *)
  | Added_bananas                 (* Added -2 bananas *)
  | Error_adding_bananas          (* Error adding bananas: {e} *)
  | Added_invalid                 (* Added invalid item *)
  | Error_adding_invalid          (* Error adding item with invalid types: {e} *)
  | Removed_apples                (* Removed 3 apples *)
  | Error_removing_apples         (* Error removing apples: {e} *)
  | Removed_orange                (* Removed 1 orange *)
  | Error_removing_orange         (* Error removing orange: {e} *)
  | Apple_stock (q : Z)           (* Apple stock: {apple_qty} *)
  | Error_getting_apple           (* Error getting apple quantity: {e} *)
  | Low_stock (items : list string) (* Low stock items: {the list, or None} *)
  | Saved                         (* Saved inventory to file *)
  | Error_saving_inventory        (* Error saving: {e} *)
  | Loaded                        (* Loaded inventory from file *)
  | Error_loading                 (* Error loading: {e} *)
  | Report (lines : list string)  (* the lines of [print_data] *)
  | Direct_execution.             (* Direct execution (safe - no eval used) *)

(** [isinstance(e, cls)] for the exception classes at hand:
    [JSONDecodeError] derives from [ValueError]. *)
Definition isinstance_exn (e cls : exn) : bool :=
  match cls, e with
  | TypeError, TypeError
  | ValueError, ValueError
  | ValueError, JSONDecodeError
  | KeyError, KeyError
  | OSError, OSError
  | JSONDecodeError, JSONDecodeError => true
  | _, _ => false
  end.

(** An [except (cls, ...)] clause takes the exception. *)
Definition caught (e : exn) (classes : list exn) : bool :=
  existsb (isinstance_exn e) classes.

(** Where [main] stands between two statements. *)
Record demo : Type := Demo {
  inventory : InventoryManager;
  outside : world;
  transcript : list said
}.

(** How a statement of [main] ends: control goes on, an exception leaves
    [main], or the data model is left. *)
Inductive flow : Type :=
  | Next (st : demo)
  | Escaped (e : exn) (st : demo)
  | Lost.

(** [print(m)] in [main]. *)
Definition say (m : said) (st : demo) : flow :=
  Next {| inventory := inventory st; outside := outside st;
          transcript := (transcript st ++ [m])%list |}.

(** What the class printed between two worlds. *)
Definition printed_since (w w' : world) : list said :=
  map Class (drop (length (stdout w)) (stdout w')).

(** [try: x = call; print(ok(x))  except classes as e: print(failed)]
    around a call that ends as [c] and leaves the world [w']. *)
Definition try_except {A : Type} (c : call A) (w' : world)
    (ok : A -> said) (classes : list exn) (failed : said) (st : demo) : flow :=
  let heard := (transcript st ++ printed_since (outside st) w')%list in
  match result c with
  | Return a =>
      Next {| inventory := after c; outside := w';
              transcript := (heard ++ [ok a])%list |}
  | Raise e =>
      if caught e classes
      then Next {| inventory := after c; outside := w';
                   transcript := (heard ++ [failed])%list |}
      else Escaped e {| inventory := after c; outside := w';
                        transcript := heard |}
  end.

(** A call outside any [try]: [x = call; print(ok(x))]. *)
Definition unguarded {A : Type} (c : call A) (w' : world)
    (ok : A -> list said) (st : demo) : flow :=
  let heard := (transcript st ++ printed_since (outside st) w')%list in
  match result c with
  | Return a =>
      Next {| inventory := after c; outside := w';
              transcript := (heard ++ ok a)%list |}
  | Raise e =>
      Escaped e {| inventory := after c; outside := w'; transcript := heard |}
  end.

(** One statement after the other. *)
Definition and_then (f : flow) (g : demo -> flow) : flow :=
  match f with
  | Next st => g st
  | Escaped e st => Escaped e st
  | Lost => Lost
  end.

(** [main()].  [now] is what [datetime.now()] renders when it is
    called.  [Next] at the end says that [main] returned. *)
Definition main (now : string) (w : world) : flow :=
  let start := {| inventory := init; outside := w; transcript := [] |} in
  and_then (say Banner start) (fun st =>
  and_then
    (try_except
       (fst (add_item (inventory st) now (VStr "apple") (VInt 10) None))
       (outside st) (fun _ => Added_apples)
       [ValueError; TypeError] Error_adding_apples st) (fun st =>
  and_then
    (try_except
       (fst (add_item (inventory st) now (VStr "banana") (VInt (-2)) None))
       (outside st) (fun _ => Added_bananas)
       [ValueError] Error_adding_bananas st) (fun st =>
  and_then
    (try_except
       (fst (add_item (inventory st) now (VInt 123) (VStr "ten") None))
       (outside st) (fun _ => Added_invalid)
       [ValueError; TypeError] Error_adding_invalid st) (fun st =>
  and_then
    (try_except
       (remove_item (inventory st) (VStr "apple") (VInt 3))
       (outside st) (fun _ => Removed_apples)
       [KeyError; ValueError] Error_removing_apples st) (fun st =>
  and_then
    (try_except
       (remove_item (inventory st) (VStr "orange") (VInt 1))
       (outside st) (fun _ => Removed_orange)
       [KeyError] Error_removing_orange st) (fun st =>
  and_then
    (try_except
       (get_qty (inventory st) (VStr "apple"))
       (outside st) Apple_stock
       [KeyError] Error_getting_apple st) (fun st =>
  and_then
    (unguarded
       (check_low_items (inventory st) None)
       (outside st) (fun low_items => [Low_stock low_items]) st) (fun st =>
  and_then
    (let '(c, w') := save_data (inventory st) (outside st) None in
     try_except c w' (fun _ => Saved) [OSError] Error_saving_inventory st)
    (fun st =>
  and_then
    (* [FileNotFoundError], the other class of this clause, never
       leaves [load_data] *)
    (match load_data (inventory st) (outside st) None with
     | Completed c w' =>
         try_except c w' (fun _ => Loaded) [JSONDecodeError] Error_loading st
     | Unmodelled => Lost
     end) (fun st =>
  and_then
    (let '(c, lines) := print_data (inventory st) in
     unguarded c (outside st) (fun _ => [Report lines]) st)
    (fun st =>
  say Direct_execution st))))))))))).

(** *** Further predicates *)

(** [s[-1]], if there is one. *)
Fixpoint last_char (s : string) : option ascii :=
  match s with
  | EmptyString => None
  | String c EmptyString => Some c
  | String _ s' => last_char s'
  end.

(** The call is no [add_item] with the quantity 0. *)
Definition adds_no_zero (o : op) : bool :=
  match o with
  | AddItem _ _ qty _ => negb (isinstance_int qty && (int_of qty =? 0))
  | _ => true
  end.

(** Every regular file is malformed or holds a table that fits
    [positive_stock]. *)
Definition files_hold_positive (w : world) : Prop :=
  forall file text, files w !! file = Some (File text) ->
  match Json.loads text with
  | Json.Table d => positive_stock d
  | Json.Foreign => False
  | Json.Malformed => True
  end.

End Inventory.

(* ===================================================================== *)
(** ** Facts about dictionaries *)
(* ===================================================================== *)

Module DictFacts.
Import Py.

Lemma lookup_setitem_eq (d : dict) (k : string) (v : Z) :
  lookup k (setitem d k v) = Some v.
Proof.
  induction d as [|[k0 v0] d0 IH]; simpl.
  - now rewrite String.eqb_refl.
  - destruct (String.eqb k k0) eqn:E; simpl; rewrite E; auto.
Qed.

Lemma lookup_setitem_ne (d : dict) (k k' : string) (v : Z) :
  k <> k' -> lookup k' (setitem d k v) = lookup k' d.
Proof.
  intros Hne. induction d as [|[k0 v0] d0 IH]; simpl.
  - apply String.eqb_neq in Hne. rewrite String.eqb_sym. now rewrite Hne.
  - destruct (String.eqb k k0) eqn:E; simpl.
    + apply String.eqb_eq in E. subst k0.
      destruct (String.eqb k' k) eqn:E'; auto.
      apply String.eqb_eq in E'. congruence.
    + destruct (String.eqb k' k0); auto.
Qed.

Lemma lookup_delitem_eq (d : dict) (k : string) :
  lookup k (delitem d k) = None.
Proof.
  induction d as [|[k0 v0] d0 IH]; simpl; auto.
  destruct (String.eqb k k0) eqn:E; simpl; auto. now rewrite E.
Qed.

Lemma lookup_delitem_ne (d : dict) (k k' : string) :
  k <> k' -> lookup k' (delitem d k) = lookup k' d.
Proof.
  intros Hne. induction d as [|[k0 v0] d0 IH]; simpl; auto.
  destruct (String.eqb k k0) eqn:E; simpl.
  - apply String.eqb_eq in E. subst k0.
    destruct (String.eqb k' k) eqn:E'; auto.
    apply String.eqb_eq in E'. congruence.
  - destruct (String.eqb k' k0); auto.
Qed.

(** A key that is absent is no first component of an item. *)
Lemma lookup_None_not_in (d : dict) (k : string) :
  lookup k d = None <-> ~ In k (map fst d).
Proof.
  induction d as [|[k0 v0] d0 IH]; simpl.
  - tauto.
  - destruct (String.eqb k k0) eqn:E.
    + apply String.eqb_eq in E. subst. split; [discriminate | tauto].
    + apply String.eqb_neq in E. rewrite IH. split.
      * intros H [H1 | H1]; [congruence | tauto].
      * tauto.
Qed.

(** Assigning to an absent key appends the item. *)
Lemma setitem_fresh (d : dict) (k : string) (v : Z) :
  lookup k d = None -> setitem d k v = (d ++ [(k, v)])%list.
Proof.
  induction d as [|[k0 v0] d0 IH]; simpl; auto.
  destruct (String.eqb k k0); [discriminate |].
  intros H. now rewrite IH.
Qed.

(** The keys after an assignment: the same, or one more at the end. *)
Lemma keys_setitem (d : dict) (k : string) (v : Z) :
  map fst (setitem d k v) =
  match lookup k d with
  | Some _ => map fst d
  | None => (map fst d ++ [k])%list
  end.
Proof.
  induction d as [|[k0 v0] d0 IH]; simpl; auto.
  destruct (String.eqb k k0) eqn:E; simpl; auto.
  rewrite IH. now destruct (lookup k d0).
Qed.

Lemma wf_setitem (d : dict) (k : string) (v : Z) :
  wf d -> wf (setitem d k v).
Proof.
  unfold wf. intros H. rewrite keys_setitem.
  destruct (lookup k d) eqn:E; auto.
  apply NoDup_app. split; [assumption |]. split.
  - intros x Hx Hk. apply list_elem_of_In in Hx.
    apply list_elem_of_singleton in Hk. subst x.
    apply lookup_None_not_in in E. contradiction.
  - apply NoDup_singleton.
Qed.

Lemma in_delitem (d : dict) (k : string) (item : string * Z) :
  In item (delitem d k) -> In item d.
Proof.
  induction d as [|[k0 v0] d0 IH]; simpl; auto.
  destruct (String.eqb k k0); simpl; intuition.
Qed.

Lemma wf_delitem (d : dict) (k : string) : wf d -> wf (delitem d k).
Proof.
  unfold wf. induction d as [|[k0 v0] d0 IH]; simpl; auto.
  intros H. apply NoDup_cons in H as [Hk0 Hd0].
  destruct (String.eqb k k0); simpl; auto.
  apply NoDup_cons. split; auto.
  intros Hin. apply Hk0.
  apply list_elem_of_In in Hin. apply list_elem_of_In.
  apply in_map_iff in Hin as [item [Hfst Hin]].
  apply in_map_iff. exists item. split; auto. eapply in_delitem; eauto.
Qed.

(** Every item after an assignment is an old one or the new one. *)
Lemma in_setitem (d : dict) (k : string) (v : Z) (item : string * Z) :
  In item (setitem d k v) -> In item d \/ item = (k, v).
Proof.
  induction d as [|[k0 v0] d0 IH]; simpl.
  - intuition.
  - destruct (String.eqb k k0) eqn:E; simpl.
    + apply String.eqb_eq in E. subst k0. intuition.
    + intuition.
Qed.

End DictFacts.

(* ===================================================================== *)
(** ** The methods that work on the table alone *)
(* ===================================================================== *)

Module TableFacts.
Import Py Inventory DictFacts.

(** [contains] and [lookup] tell the same story. *)
Lemma contains_str (d : dict) (name : string) :
  contains d (VStr name) = true <-> exists q, lookup name d = Some q.
Proof.
  simpl. destruct (lookup name d) as [q|]; split; intros H; eauto.
  - discriminate.
  - destruct H as [q H]. discriminate.
Qed.

Lemma get_lookup (d : dict) (name : string) (q : Z) :
  lookup name d = Some q -> get d name 0 = q.
Proof. unfold get. now intros ->. Qed.

(** What [get_qty] answers is read off [lookup]. *)
Lemma get_qty_present (self : InventoryManager) (name : string) (q : Z) :
  lookup name (stock_data self) = Some q ->
  get_qty self (VStr name) = Call (Return q) self.
Proof.
  intros H. unfold get_qty, getitem, get. simpl. now rewrite H.
Qed.

Lemma get_qty_absent (self : InventoryManager) (item : value) :
  contains (stock_data self) item = false ->
  get_qty self item = Call (Raise KeyError) self.
Proof. intros H. unfold get_qty. now rewrite H. Qed.

(** A call of [add_item] that passes the four checks. *)
Lemma add_item_valid (self : InventoryManager) (now name : string)
    (qty : value) (logs : option (list string)) :
  valid_name name -> isinstance_int qty = true -> 0 <= int_of qty ->
  fst (add_item self now (VStr name) qty logs) =
  Call (Return true)
    {| stock_data := setitem (stock_data self) name
                       (get (stock_data self) name 0 + int_of qty) |}.
Proof.
  intros Hname Hint Hqty. unfold add_item. unfold valid_name in Hname.
  rewrite Hname, Hint. simpl.
  destruct (int_of qty <? 0) eqn:E; [apply Z.ltb_lt in E; lia | reflexivity].
Qed.

(** C3. For every string [name] that is non-empty after trimming and
    every integer [qty >= 0], [add_item(name, qty)] returns [True], and
    afterwards the quantity stored under [name] is the previous one (0
    when the item was absent) plus [qty]; [get_qty(name)] returns that
    sum. *)
Theorem add_item_adds (self : InventoryManager) (now name : string)
    (qty : value) (logs : option (list string)) :
  valid_name name -> isinstance_int qty = true -> 0 <= int_of qty ->
  let c := fst (add_item self now (VStr name) qty logs) in
  let previous := get (stock_data self) name 0 in
  result c = Return true /\
  lookup name (stock_data (after c)) = Some (previous + int_of qty) /\
  result (get_qty (after c) (VStr name)) = Return (previous + int_of qty).
Proof.
  intros Hname Hint Hqty c previous. subst c previous.
  rewrite (add_item_valid self now name qty logs Hname Hint Hqty). simpl.
  split; [reflexivity |].
  assert (L : lookup name
                (setitem (stock_data self) name
                   (get (stock_data self) name 0 + int_of qty)) =
              Some (get (stock_data self) name 0 + int_of qty))
    by apply lookup_setitem_eq.
  split; [exact L |].
  erewrite get_qty_present; [reflexivity | exact L].
Qed.

Lemma add_item_adds_witness :
  let c := fst (add_item {| stock_data := [("apple", 10)] |} "2026-01-01"
                  (VStr "apple") (VInt 5) None) in
  result c = Return true /\
  lookup "apple" (stock_data (after c)) = Some (10 + 5) /\
  result (get_qty (after c) (VStr "apple")) = Return (10 + 5).
Proof.
  apply (add_item_adds {| stock_data := [("apple", 10)] |} "2026-01-01"
           "apple" (VInt 5) None); [reflexivity | reflexivity | simpl; lia].
Defined.

(** C10. For every valid item name absent from the table,
    [add_item(name, 0)] returns [True] and creates an entry that stores
    0; [get_qty(name)] then returns 0 rather than raising [KeyError]. *)
Theorem add_item_zero_creates_entry (self : InventoryManager)
    (now name : string) (logs : option (list string)) :
  valid_name name -> lookup name (stock_data self) = None ->
  let c := fst (add_item self now (VStr name) (VInt 0) logs) in
  result c = Return true /\
  stock_data (after c) = (stock_data self ++ [(name, 0)])%list /\
  lookup name (stock_data (after c)) = Some 0 /\
  get_qty (after c) (VStr name) = Call (Return 0) (after c).
Proof.
  intros Hname Habsent c. subst c.
  rewrite (add_item_valid self now name (VInt 0) logs Hname eq_refl);
    [| simpl; lia].
  simpl. unfold get. rewrite Habsent. simpl.
  split; [reflexivity |].
  split; [now apply setitem_fresh |].
  assert (L : lookup name (setitem (stock_data self) name 0) = Some 0)
    by apply lookup_setitem_eq.
  split; [exact L |].
  now apply get_qty_present.
Qed.

Lemma add_item_zero_creates_entry_witness :
  let c := fst (add_item init "2026-01-01" (VStr "apple") (VInt 0) None) in
  result c = Return true /\
  stock_data (after c) = [("apple", 0)] /\
  lookup "apple" (stock_data (after c)) = Some 0 /\
  get_qty (after c) (VStr "apple") = Call (Return 0) (after c).
Proof.
  apply (add_item_zero_creates_entry init "2026-01-01" "apple" None);
    reflexivity.
Defined.

(** C6. [add_item] checks in this order: the item is no string
    ([TypeError]); the item is empty after trimming ([ValueError]); the
    quantity is no integer ([TypeError]); the quantity is negative
    ([ValueError]).  A later defect does not mask an earlier one, and a
    rejected call changes neither the table nor the log list. *)
Theorem add_item_validation_order (self : InventoryManager) (now : string)
    (item qty : value) (logs : option (list string)) :
  let unchanged (e : exn) :=
    add_item self now item qty logs =
    (Call (Raise e) self, match logs with None => [] | Some l => l end) in
  (isinstance_str item = false -> unchanged TypeError) /\
  (forall name, item = VStr name -> ~ valid_name name ->
     unchanged ValueError) /\
  (forall name, item = VStr name -> valid_name name ->
     isinstance_int qty = false -> unchanged TypeError) /\
  (forall name, item = VStr name -> valid_name name ->
     isinstance_int qty = true -> int_of qty < 0 -> unchanged ValueError).
Proof.
  intros unchanged. subst unchanged. simpl. unfold valid_name.
  split; [| split; [| split]].
  - intros H. destruct item; try reflexivity. discriminate.
  - intros name -> Hname. unfold add_item.
    destruct (truthy (strip name)); [congruence | reflexivity].
  - intros name -> Hname Hint. unfold add_item. now rewrite Hname, Hint.
  - intros name -> Hname Hint Hneg. unfold add_item. rewrite Hname, Hint.
    simpl. apply Z.ltb_lt in Hneg. now rewrite Hneg.
Qed.

Lemma add_item_validation_order_witness :
  add_item init "2026-01-01" (VInt 123) (VStr "ten") None
    = (Call (Raise TypeError) init, []) /\
  add_item init "2026-01-01" (VStr "  ") (VStr "ten") None
    = (Call (Raise ValueError) init, []) /\
  add_item init "2026-01-01" (VStr "apple") (VFloat 0) None
    = (Call (Raise TypeError) init, []) /\
  add_item init "2026-01-01" (VStr "banana") (VInt (-2)) None
    = (Call (Raise ValueError) init, []).
Proof.
  split; [| split; [| split]].
  - destruct (add_item_validation_order init "2026-01-01" (VInt 123)
                (VStr "ten") None) as (H1 & _).
    apply H1. reflexivity.
  - destruct (add_item_validation_order init "2026-01-01" (VStr "  ")
                (VStr "ten") None) as (_ & H2 & _).
    apply (H2 "  "%string); [reflexivity | vm_compute; discriminate].
  - destruct (add_item_validation_order init "2026-01-01" (VStr "apple")
                (VFloat 0) None) as (_ & _ & H3 & _).
    apply (H3 "apple"%string); reflexivity.
  - destruct (add_item_validation_order init "2026-01-01" (VStr "banana")
                (VInt (-2)) None) as (_ & _ & _ & H4).
    apply (H4 "banana"%string); reflexivity.
Defined.

(** The claim that [remove_item] answers [KeyError] for an absent item
    whatever the quantity fails: the quantity is checked first. *)
Lemma remove_item_checks_quantity_first :
  contains (stock_data init) (VStr "orange") = false /\
  remove_item init (VStr "orange") (VInt (-1)) = Call (Raise ValueError) init /\
  remove_item init (VStr "orange") (VFloat 0) = Call (Raise ValueError) init /\
  result (remove_item init (VStr "orange") (VInt (-1))) <> Raise KeyError.
Proof. repeat split. discriminate. Qed.

(** C2, amended. For every item absent from the table: with an integer
    quantity [>= 0] (0 included) [remove_item] raises [KeyError]; with a
    negative quantity or one that is no integer it raises [ValueError];
    either way the table is unchanged. *)
Theorem remove_item_absent (self : InventoryManager) (item qty : value) :
  contains (stock_data self) item = false ->
  (isinstance_int qty = true -> 0 <= int_of qty ->
     remove_item self item qty = Call (Raise KeyError) self) /\
  (isinstance_int qty = false \/ int_of qty < 0 ->
     remove_item self item qty = Call (Raise ValueError) self).
Proof.
  intros Habsent. unfold remove_item. split.
  - intros Hint Hqty. rewrite Hint, Habsent. simpl.
    destruct (int_of qty <? 0) eqn:E; [apply Z.ltb_lt in E; lia | reflexivity].
  - intros [Hint | Hneg].
    + now rewrite Hint.
    + apply Z.ltb_lt in Hneg. rewrite Hneg. now rewrite orb_true_r.
Qed.

Lemma remove_item_absent_witness :
  remove_item init (VStr "orange") (VInt 0) = Call (Raise KeyError) init /\
  remove_item init (VStr "orange") (VInt (-1)) = Call (Raise ValueError) init.
Proof.
  destruct (remove_item_absent init (VStr "orange") (VInt 0) eq_refl)
    as (Hkey & _).
  destruct (remove_item_absent init (VStr "orange") (VInt (-1)) eq_refl)
    as (_ & Hvalue).
  split.
  - apply Hkey; [reflexivity | simpl; lia].
  - apply Hvalue. right. simpl. lia.
Defined.

(** A call of [remove_item] that passes both checks. *)
Lemma remove_item_valid (self : InventoryManager) (name : string)
    (q : Z) (qty : value) :
  lookup name (stock_data self) = Some q ->
  isinstance_int qty = true -> 0 <= int_of qty ->
  remove_item self (VStr name) qty =
  let stock := setitem (stock_data self) name (q - int_of qty) in
  Call (Return true)
    {| stock_data := if q - int_of qty <=? 0 then delitem stock name
                     else stock |}.
Proof.
  intros Hq Hint Hqty. unfold remove_item. rewrite Hint. simpl.
  destruct (int_of qty <? 0) eqn:E; [apply Z.ltb_lt in E; lia |].
  rewrite Hq. simpl. rewrite (get_lookup _ _ _ Hq).
  rewrite (get_lookup _ _ _ (lookup_setitem_eq _ _ _)).
  now destruct (q - int_of qty <=? 0).
Qed.

(** C4. For every item stored with quantity [q] and every integer
    [r >= 0], [remove_item(item, r)] returns [True]; when [r >= q] the
    item is deleted and [get_qty(item)] raises [KeyError]; when [r < q]
    the item stores [q - r] and [get_qty(item)] returns [q - r]. *)
Theorem remove_item_takes (self : InventoryManager) (name : string)
    (q : Z) (qty : value) :
  lookup name (stock_data self) = Some q ->
  isinstance_int qty = true -> 0 <= int_of qty ->
  let c := remove_item self (VStr name) qty in
  result c = Return true /\
  (q <= int_of qty ->
     lookup name (stock_data (after c)) = None /\
     result (get_qty (after c) (VStr name)) = Raise KeyError) /\
  (int_of qty < q ->
     lookup name (stock_data (after c)) = Some (q - int_of qty) /\
     result (get_qty (after c) (VStr name)) = Return (q - int_of qty)).
Proof.
  intros Hq Hint Hqty c. subst c.
  rewrite (remove_item_valid self name q qty Hq Hint Hqty). simpl.
  split; [reflexivity |]. split.
  - intros Hall.
    destruct (q - int_of qty <=? 0) eqn:E; [| apply Z.leb_gt in E; lia].
    assert (L : lookup name
                  (delitem (setitem (stock_data self) name (q - int_of qty))
                     name) = None) by apply lookup_delitem_eq.
    split; [exact L |].
    rewrite get_qty_absent; [reflexivity |]. simpl. now rewrite L.
  - intros Hsome.
    destruct (q - int_of qty <=? 0) eqn:E; [apply Z.leb_le in E; lia |].
    assert (L : lookup name
                  (setitem (stock_data self) name (q - int_of qty)) =
                Some (q - int_of qty)) by apply lookup_setitem_eq.
    split; [exact L |].
    erewrite get_qty_present; [reflexivity | exact L].
Qed.

Lemma remove_item_takes_witness :
  let self := {| stock_data := [("apple", 10)] |} in
  (result (remove_item self (VStr "apple") (VInt 3)) = Return true /\
   lookup "apple" (stock_data (after (remove_item self (VStr "apple") (VInt 3))))
     = Some (10 - 3)) /\
  (result (remove_item self (VStr "apple") (VInt 10)) = Return true /\
   lookup "apple" (stock_data (after (remove_item self (VStr "apple") (VInt 10))))
     = None).
Proof.
  intros self. split.
  - destruct (remove_item_takes self "apple" 10 (VInt 3) eq_refl eq_refl)
      as (Hret & _ & Hless); [simpl; lia |].
    split; [exact Hret |]. apply Hless. simpl. lia.
  - destruct (remove_item_takes self "apple" 10 (VInt 10) eq_refl eq_refl)
      as (Hret & Hall & _); [simpl; lia |].
    split; [exact Hret |]. apply Hall. simpl. lia.
Defined.

(** The loop of [check_low_items] is a filter. *)
Lemma low_items_loop (t : Z) (d : dict) (acc : list string) :
  fold_left
    (fun result '(item, quantity) =>
       if quantity <? t then (result ++ [item])%list else result) d acc =
  (acc ++ map fst (List.filter (fun item => snd item <? t) d))%list.
Proof.
  revert acc. induction d as [|[k v] d IH]; intros acc; simpl.
  - now rewrite app_nil_r.
  - rewrite IH. destruct (v <? t); simpl; [| reflexivity].
    now rewrite <- app_assoc.
Qed.

(** C9. For every table and every integer threshold, [check_low_items]
    returns the items whose quantity is strictly below the threshold, in
    the table's order, and leaves the table as it was; the threshold
    defaults to 5, and on [{"apple": 10, "banana": 3, "cherry": 5}] the
    default gives exactly [["banana"]]. *)
Theorem check_low_items_below_threshold :
  (forall (self : InventoryManager) (t : Z),
     check_low_items self (Some t) =
     Call (Return (map fst (List.filter (fun item => snd item <? t)
                              (stock_data self)))) self) /\
  (forall self : InventoryManager,
     check_low_items self None = check_low_items self (Some 5)) /\
  check_low_items
    {| stock_data := [("apple", 10); ("banana", 3); ("cherry", 5)] |} None =
  Call (Return ["banana"%string])
    {| stock_data := [("apple", 10); ("banana", 3); ("cherry", 5)] |}.
Proof.
  split; [| split; reflexivity].
  intros self t. unfold check_low_items. now rewrite low_items_loop.
Qed.

(** The same, item by item: a name is reported exactly when some item
    of that name has a quantity below the threshold. *)
Lemma check_low_items_membership (self : InventoryManager) (t : Z)
    (name : string) :
  In name (map fst (List.filter (fun item => snd item <? t)
                      (stock_data self))) <->
  exists q, In (name, q) (stock_data self) /\ q < t.
Proof.
  rewrite in_map_iff. split.
  - intros [[k q] [Hk Hin]]. simpl in Hk. subst k.
    apply filter_In in Hin as [Hin Hlt]. simpl in Hlt.
    apply Z.ltb_lt in Hlt. eauto.
  - intros [q [Hin Hlt]]. exists (name, q). split; [reflexivity |].
    apply filter_In. split; [assumption |]. simpl. now apply Z.ltb_lt.
Qed.

(** The scenario of [main]: on the empty inventory, add 10 apples,
    reject -2 bananas and the item 123, remove 3 apples, fail to remove
    an orange, and find 7 apples, none of them low. *)
Example demo_scenario :
  let s1 := after (fst (add_item init "2026-01-01" (VStr "apple") (VInt 10) None)) in
  let s2 := after (remove_item s1 (VStr "apple") (VInt 3)) in
  result (fst (add_item s1 "2026-01-01" (VStr "banana") (VInt (-2)) None))
    = Raise ValueError /\
  result (fst (add_item s1 "2026-01-01" (VInt 123) (VStr "ten") None))
    = Raise TypeError /\
  result (remove_item s2 (VStr "orange") (VInt 1)) = Raise KeyError /\
  get_qty s2 (VStr "apple") = Call (Return 7) s2 /\
  check_low_items s2 None = Call (Return []) s2.
Proof. repeat split. Qed.

End TableFacts.

(* ===================================================================== *)
(** ** The codec: what is written is read back *)
(* ===================================================================== *)

Module JsonFacts.
Import Py Json DictFacts.

Local Open Scope char_scope.

(** *** Concatenation *)

Lemma append_String (c : ascii) (s t : string) :
  (String c s ++ t)%string = String c (s ++ t).
Proof. reflexivity. Qed.

Lemma append_assoc (s t u : string) :
  ((s ++ t) ++ u)%string = (s ++ (t ++ u))%string.
Proof.
  induction s as [|c s IH]; [reflexivity |].
  now rewrite !append_String, IH.
Qed.

Lemma length_append (s t : string) :
  String.length (s ++ t) = (String.length s + String.length t)%nat.
Proof.
  induction s as [|c s IH]; [reflexivity |].
  rewrite append_String. simpl. now rewrite IH.
Qed.

(** *** Strings *)

(** One escaped character is read back as that character. *)
Lemma scanstring_escape_char (c : ascii) (s : string) :
  scanstring (escape_char c ++ s) = push c (scanstring s).
Proof.
  destruct c as [[] [] [] [] [] [] [] []]; reflexivity.
Qed.

Lemma scanstring_escape (k rest : string) :
  scanstring (escape k ++ String "034" rest) = Got (Some k) rest.
Proof.
  induction k as [|c k IH].
  - reflexivity.
  - change (escape (String c k)) with (escape_char c ++ escape k)%string.
    rewrite append_assoc, scanstring_escape_char, IH. reflexivity.
Qed.

(** *** Integers *)

Lemma digits_string_of_uint (u : uint) (rest : string) :
  no_digit_ahead rest ->
  digits (NilEmpty.string_of_uint u ++ rest) = (u, rest).
Proof.
  intros Hrest.
  induction u; simpl NilEmpty.string_of_uint;
    [exact Hrest | rewrite append_String; simpl; rewrite IHu; reflexivity ..].
Qed.

(** [Pos.to_uint] writes no leading zero. *)
Lemma to_uint_head (p : positive) :
  match Pos.to_uint p with
  | Nil | D0 _ => False
  | _ => True
  end.
Proof.
  pose proof (DecimalPos.Unsigned.to_uint_nonnil p) as Hnil.
  pose proof (DecimalPos.Unsigned.to_uint_nonzero p) as Hzero.
  pose proof (DecimalPos.Unsigned.to_of (Pos.to_uint p)) as Hnorm.
  rewrite DecimalPos.Unsigned.of_to in Hnorm. simpl in Hnorm.
  destruct (Pos.to_uint p) as [|u| | | | | | | | |] eqn:E; auto.
  rewrite DecimalFacts.unorm_D0 in Hnorm.
  unfold unorm in Hnorm.
  destruct (nzhead u) eqn:Eu; try discriminate.
  - now apply Hzero.
  - symmetry in Hnorm. rewrite <- Eu in Hnorm.
    now apply DecimalFacts.nzhead_nonzero in Hnorm.
Qed.

Lemma number_stops_comma (s : string) : number_stops (String "," s).
Proof.
  unfold number_stops, no_digit_ahead. simpl.
  destruct (digits s). auto.
Qed.

Lemma number_stops_newline (s : string) : number_stops (String "010" s).
Proof.
  unfold number_stops, no_digit_ahead. simpl.
  destruct (digits s). auto.
Qed.

Lemma expect_other (c c' : ascii) (s : string) :
  c <> c' -> expect c (String c' s) = None.
Proof.
  intros Hc. simpl. destruct (Ascii.eqb_spec c c'); congruence.
Qed.

Lemma unsigned_part_nonzero (c : ascii) (s : string) :
  c <> "0" ->
  unsigned_part (String c s) =
  match digits (String c s) with
  | (Nil, _) => None
  | (u, rest) => Some (u, rest)
  end.
Proof.
  intros Hc. unfold unsigned_part. now rewrite expect_other by congruence.
Qed.

Lemma unsigned_part_uint (u : uint) (rest : string) :
  match u with Nil | D0 _ => False | _ => True end ->
  no_digit_ahead rest ->
  unsigned_part (NilEmpty.string_of_uint u ++ rest) = Some (u, rest).
Proof.
  intros Hhead Hrest. pose proof (digits_string_of_uint u rest Hrest) as D.
  destruct u; try contradiction;
    simpl NilEmpty.string_of_uint in *; rewrite append_String in *;
    (rewrite unsigned_part_nonzero; [now rewrite D | discriminate]).
Qed.

Lemma unsigned_part_to_uint (p : positive) (rest : string) :
  no_digit_ahead rest ->
  unsigned_part (NilZero.string_of_uint (Pos.to_uint p) ++ rest) =
  Some (Pos.to_uint p, rest).
Proof.
  intros Hrest. pose proof (to_uint_head p) as Hhead.
  pose proof (unsigned_part_uint (Pos.to_uint p) rest Hhead Hrest) as U.
  now destruct (Pos.to_uint p).
Qed.

(** The integer [str] writes is the integer [NUMBER_RE] reads. *)
Lemma integer_part_str (z : Z) (rest : string) :
  no_digit_ahead rest ->
  integer_part (str_of_Z z ++ rest) = Some (Z.to_int z, rest).
Proof.
  intros Hrest. unfold str_of_Z. destruct z as [|p|p]; simpl Z.to_int.
  - reflexivity.
  - unfold NilZero.string_of_int.
    pose proof (unsigned_part_to_uint p rest Hrest) as U.
    pose proof (to_uint_head p) as Hhead.
    destruct (Pos.to_uint p) eqn:E; try contradiction;
      unfold NilZero.string_of_uint in *; simpl NilEmpty.string_of_uint in *;
      rewrite append_String in *; unfold integer_part;
      (rewrite expect_other by discriminate); rewrite U; reflexivity.
  - unfold NilZero.string_of_int. rewrite append_String.
    unfold integer_part.
    change (expect "-" (String "-" ?r)) with (Some r). cbv iota.
    now rewrite (unsigned_part_to_uint p rest Hrest).
Qed.

Lemma match_number_str (z : Z) (rest : string) :
  number_stops rest ->
  match_number (str_of_Z z ++ rest) = Some (DInt z, rest).
Proof.
  intros (Hdigit & Hfrac & Hexp). unfold match_number.
  rewrite (integer_part_str z rest Hdigit), Hfrac, Hexp.
  now rewrite DecimalZ.of_to.
Qed.

Lemma str_of_Z_head (z : Z) :
  exists c s, str_of_Z z = String c s /\ number_head c = true.
Proof.
  unfold str_of_Z. destruct z as [|p|p]; simpl Z.to_int.
  - now exists "0", EmptyString.
  - pose proof (to_uint_head p) as Hhead. simpl.
    destruct (Pos.to_uint p); try contradiction; simpl; eauto.
  - simpl. eauto.
Qed.

Lemma scan_scalar_str (z : Z) (rest : string) :
  number_stops rest ->
  scan_scalar (str_of_Z z ++ rest) = Got (DInt z) rest.
Proof.
  intros Hrest. pose proof (match_number_str z rest Hrest) as M.
  destruct (str_of_Z_head z) as (c & s & E & Hc). rewrite E in *.
  rewrite append_String in *. unfold scan_scalar. rewrite M.
  destruct c as [[] [] [] [] [] [] [] []]; try discriminate; reflexivity.
Qed.

Lemma skip_ws_str (z : Z) (rest : string) :
  skip_ws (str_of_Z z ++ rest) = (str_of_Z z ++ rest)%string.
Proof.
  destruct (str_of_Z_head z) as (c & s & E & Hc). rewrite E.
  rewrite append_String.
  destruct c as [[] [] [] [] [] [] [] []]; try discriminate; reflexivity.
Qed.

(** A value that is an integer takes one unit of budget. *)
Lemma scan_once_str (budget : nat) (z : Z) (rest : string) :
  number_stops rest ->
  scan_once (S budget) AtValue (str_of_Z z ++ rest) = Got (DInt z) rest.
Proof.
  intros Hrest. pose proof (scan_scalar_str z rest Hrest) as M.
  destruct (str_of_Z_head z) as (c & s & E & Hc). rewrite E in *.
  rewrite append_String in *. simpl scan_once. rewrite <- M.
  destruct c as [[] [] [] [] [] [] [] []]; try discriminate; reflexivity.
Qed.

(** *** Members and documents *)

Lemma scan_member (budget : nat) (acc : dict) (k : string) (v : Z) (more : string) :
  number_stops more ->
  scan_once (S (S budget)) (AtMember (Some acc)) (member_text k v more) =
  match expect "}" (skip_ws more) with
  | Some rest3 => Got (DObject (Some (setitem acc k v))) rest3
  | None =>
      match expect "," (skip_ws more) with
      | Some rest3 =>
          match expect "034" (skip_ws rest3) with
          | Some rest4 =>
              scan_once (S budget) (AtMember (Some (setitem acc k v))) rest4
          | None => Bad
          end
      | None => Bad
      end
  end.
Proof.
  intros Hmore. unfold member_text.
  remember (S budget) as b eqn:Eb. cbn [scan_once].
  rewrite scanstring_escape.
  change (skip_ws (String ":" ?r)) with (String ":" r).
  change (expect ":" (String ":" ?r)) with (Some r). cbv iota.
  change (skip_ws (String " " ?r)) with (skip_ws r).
  rewrite skip_ws_str. subst b.
  rewrite (scan_once_str _ _ _ Hmore). cbv iota. cbv zeta.
  change (add_pair (Some acc) (Some k) (DInt v)) with (Some (setitem acc k v)).
  reflexivity.
Qed.

Lemma encode_item_shape (k : string) (v : Z) (more : string) :
  (encode_item (k, v) ++ more)%string = String "034" (member_text k v more).
Proof.
  unfold encode_item, encode_basestring_ascii, member_text. simpl fst. simpl snd.
  rewrite !append_String, !append_assoc. rewrite !append_String.
  reflexivity.
Qed.

Lemma encode_more_shape (k : string) (v : Z) (items : dict) (more : string) :
  (encode_more ((k, v) :: items) ++ more)%string =
  String "," (String "010" (String " " (String " " (String "034"
    (member_text k v (encode_more items ++ more)))))).
Proof.
  simpl encode_more. unfold newline_indent. rewrite !append_assoc.
  rewrite !append_String. change ((EmptyString ++ ?s)%string) with s.
  now rewrite encode_item_shape.
Qed.

Lemma scan_members (items : dict) :
  forall (acc : dict) (k : string) (v : Z) (budget : nat) (rest : string),
  (length items <= budget)%nat ->
  scan_once (S (S budget)) (AtMember (Some acc))
    (member_text k v (encode_more items ++ String "010" (String "}" rest))) =
  Got (DObject (Some (assign ((k, v) :: items) acc))) rest.
Proof.
  induction items as [|[k2 v2] items IH]; intros acc k v budget rest Hb.
  - change ((encode_more [] ++ ?s)%string) with s.
    rewrite scan_member by apply number_stops_newline. reflexivity.
  - rewrite encode_more_shape.
    rewrite scan_member by apply number_stops_comma.
    destruct budget as [|budget]; [simpl in Hb; lia |].
    change (skip_ws (String "," ?r)) with (String "," r).
    change (expect "}" (String "," ?r)) with (@None string).
    change (expect "," (String "," ?r)) with (Some r). cbv iota.
    change (skip_ws (String "010" (String " " (String " " (String "034" ?r)))))
      with (String "034" r).
    change (expect "034" (String "034" ?r)) with (Some r). cbv iota.
    rewrite IH by (simpl in Hb; lia). reflexivity.
Qed.

Lemma assign_fresh (items : dict) :
  forall acc : dict,
  NoDup (map fst acc ++ map fst items) -> assign items acc = (acc ++ items)%list.
Proof.
  induction items as [|[k v] items IH]; intros acc Hnd; simpl.
  - now rewrite app_nil_r.
  - unfold assign in *. simpl. rewrite setitem_fresh.
    + rewrite IH.
      * now rewrite <- app_assoc.
      * rewrite map_app. simpl. now rewrite <- app_assoc.
    + apply lookup_None_not_in. intros Hin.
      apply NoDup_app in Hnd as (_ & Hdisj & _).
      apply (Hdisj k); [now apply list_elem_of_In |].
      simpl. apply list_elem_of_here.
Qed.

Lemma length_encode_more (items : dict) :
  (length items <= String.length (encode_more items))%nat.
Proof.
  induction items as [|item items IH]; simpl; [lia |].
  rewrite !length_append. simpl. lia.
Qed.

Lemma length_dumps (d : dict) : (length d <= String.length (dumps d))%nat.
Proof.
  destruct d as [|item items]; [simpl; lia |].
  unfold dumps. rewrite !length_append.
  pose proof (length_encode_more items). simpl. lia.
Qed.

(** Reading back what [dumps] wrote gives the items assigned in order. *)
Lemma loads_dumps_assign (d : dict) : loads (dumps d) = Table (assign d []).
Proof.
  destruct d as [|[k v] items]; [reflexivity |].
  unfold loads.
  pose proof (length_dumps ((k, v) :: items)) as Hlen. simpl length in Hlen.
  destruct (budget_for (dumps ((k, v) :: items))) as [|[|[|budget]]] eqn:E;
    unfold budget_for in E; try lia.
  assert (Hb : (length items <= budget)%nat) by lia. clear E Hlen.
  assert (Hshape : dumps ((k, v) :: items) =
            String "{" (String "010" (String " " (String " " (String "034"
              (member_text k v
                 (encode_more items ++ String "010" (String "}" EmptyString)))))))).
  { unfold dumps, newline_indent. rewrite !append_String.
    change ((EmptyString ++ ?s)%string) with s. rewrite <- encode_item_shape.
    reflexivity. }
  rewrite Hshape.
  change (skip_ws (String "{" ?r)) with (String "{" r).
  change (scan_once (S (S (S budget))) AtValue
            (String "{" (String "010" (String " " (String " " (String "034" ?r))))))
    with (scan_once (S (S budget)) (AtMember (Some [])) r).
  rewrite scan_members by exact Hb. reflexivity.
Qed.

(** The round trip of the codec: a dictionary is read back as
    written. *)
Lemma loads_dumps (d : dict) : wf d -> loads (dumps d) = Table d.
Proof.
  intros Hwf. rewrite loads_dumps_assign. unfold wf in Hwf.
  now rewrite assign_fresh.
Qed.

(** *** The budget of the scanner *)

Lemma skip_ws_length (s : string) : (String.length (skip_ws s) <= String.length s)%nat.
Proof.
  induction s as [|c s IH]; simpl; [lia |].
  destruct (is_ws c); simpl; lia.
Qed.

Lemma expect_length (c : ascii) (s rest : string) :
  expect c s = Some rest -> String.length s = S (String.length rest).
Proof.
  destruct s as [|c' s]; simpl; [discriminate |].
  destruct (Ascii.eqb c c'); [| discriminate]. now intros [= ->].
Qed.

Lemma digits_length (s : string) : (String.length (snd (digits s)) <= String.length s)%nat.
Proof.
  induction s as [|c s IH]; [simpl; lia |].
  cbn [digits]. destruct (digits s) as [u rest].
  destruct (uint_of_char c (Some u)); cbn [snd String.length] in *; lia.
Qed.

Lemma after_word_length (word s rest : string) :
  after_word word s = Some rest -> (String.length rest <= String.length s)%nat.
Proof.
  revert s. induction word as [|c word IH]; intros s; simpl.
  - now intros [= ->].
  - destruct s as [|c' s]; [discriminate |].
    destruct (Ascii.eqb c c'); [| discriminate].
    intros H. apply IH in H. simpl. lia.
Qed.

Lemma some_digits_length (s rest : string) :
  some_digits s = Some rest -> (String.length rest <= String.length s)%nat.
Proof.
  unfold some_digits. pose proof (digits_length s) as D.
  destruct (digits s) as [u r]. simpl in D.
  destruct u; [discriminate | intros [= <-]; exact D ..].
Qed.

Lemma unsigned_part_length (s rest : string) (u : uint) :
  unsigned_part s = Some (u, rest) -> (String.length rest <= String.length s)%nat.
Proof.
  unfold unsigned_part.
  destruct (expect "0" s) as [r|] eqn:E.
  - intros [= _ <-]. apply expect_length in E. lia.
  - pose proof (digits_length s) as D.
    destruct (digits s) as [u' rest']. simpl in D.
    destruct u'; [discriminate | intros [= _ <-]; exact D ..].
Qed.

Lemma integer_part_length (s rest : string) (i : int) :
  integer_part s = Some (i, rest) -> (String.length rest <= String.length s)%nat.
Proof.
  unfold integer_part.
  destruct (expect "-" s) as [s'|] eqn:E.
  - destruct (unsigned_part s') as [[u r]|] eqn:U; [| discriminate].
    intros [= _ <-]. apply unsigned_part_length in U.
    apply expect_length in E. lia.
  - destruct (unsigned_part s) as [[u r]|] eqn:U; [| discriminate].
    intros [= _ <-]. now apply unsigned_part_length in U.
Qed.

Lemma fraction_part_length (s rest : string) :
  fraction_part s = Some rest -> (String.length rest <= String.length s)%nat.
Proof.
  unfold fraction_part. destruct (expect "." s) as [s'|] eqn:E; [| discriminate].
  intros H. apply some_digits_length in H. apply expect_length in E. lia.
Qed.

Lemma skip_sign_length (s : string) : (String.length (skip_sign s) <= String.length s)%nat.
Proof.
  unfold skip_sign.
  destruct (expect "+" s) as [s'|] eqn:E; [apply expect_length in E; lia |].
  destruct (expect "-" s) as [s'|] eqn:E'; [apply expect_length in E'; lia |].
  lia.
Qed.

Lemma exponent_part_length (s rest : string) :
  exponent_part s = Some rest -> (String.length rest <= String.length s)%nat.
Proof.
  unfold exponent_part.
  destruct (expect "e" s) as [s'|] eqn:E.
  - intros H. apply some_digits_length in H. apply expect_length in E.
    pose proof (skip_sign_length s'). lia.
  - destruct (expect "E" s) as [s'|] eqn:E'; [| discriminate].
    intros H. apply some_digits_length in H. apply expect_length in E'.
    pose proof (skip_sign_length s'). lia.
Qed.

Lemma match_number_length (s rest : string) (v : doc) :
  match_number s = Some (v, rest) -> (String.length rest <= String.length s)%nat.
Proof.
  unfold match_number.
  destruct (integer_part s) as [[i r]|] eqn:I; [| discriminate].
  apply integer_part_length in I.
  destruct (fraction_part r) as [r1|] eqn:F.
  - apply fraction_part_length in F.
    destruct (exponent_part r1) as [r2|] eqn:X.
    + apply exponent_part_length in X. intros [= _ <-]. lia.
    + intros [= _ <-]. lia.
  - destruct (exponent_part r) as [r2|] eqn:X.
    + apply exponent_part_length in X. intros [= _ <-]. lia.
    + intros [= _ <-]. lia.
Qed.

Lemma scan_scalar_length (s rest : string) (v : doc) :
  scan_scalar s = Got v rest -> (String.length rest <= String.length s)%nat.
Proof.
  unfold scan_scalar.
  repeat match goal with
  | |- context [after_word ?w s] =>
      let E := fresh "E" in
      destruct (after_word w s) eqn:E;
      [apply after_word_length in E; intros [= _ <-]; exact E |]
  | |- context [match_number s] =>
      let E := fresh "E" in
      destruct (match_number s) as [[? ?]|] eqn:E;
      [apply match_number_length in E; intros [= _ <-]; exact E |]
  end.
  discriminate.
Qed.

Lemma scan_scalar_fed (s : string) : scan_scalar s <> Starved.
Proof.
  unfold scan_scalar.
  repeat match goal with
  | |- context [after_word ?w s] => destruct (after_word w s); [discriminate |]
  | |- context [match_number s] =>
      destruct (match_number s) as [[? ?]|]; [discriminate |]
  end.
  discriminate.
Qed.

(** A string literal ends behind its closing quote. *)
Lemma scanstring_length_fed (n : nat) :
  forall s : string, (String.length s <= n)%nat ->
  scanstring s <> Starved /\
  forall k rest, scanstring s = Got k rest -> (String.length rest < String.length s)%nat.
Proof.
  induction n as [|n IH]; intros s Hn.
  - destruct s; [| simpl in Hn; lia]. split; [discriminate | discriminate].
  - destruct s as [|c s1]; [split; discriminate |].
    simpl in Hn. cbn [scanstring].
    destruct (Ascii.eqb c "034").
    { split; [discriminate |]. intros k rest [= _ <-]. simpl. lia. }
    destruct (Ascii.eqb c "\").
    + destruct s1 as [|e s2]; [split; discriminate |].
      destruct (Ascii.eqb e "u").
      * destruct s2 as [|h1 [|h2 [|h3 [|h4 s3]]]]; try (split; discriminate).
        destruct (decode_uXXXX h1 h2 h3 h4); [| split; discriminate].
        destruct (IH s3) as [Hfed Hlen]; [simpl in Hn; lia |].
        destruct (scanstring s3) as [k0 r0| |]; simpl;
          [| split; discriminate | contradiction].
        split; [discriminate |]. intros k rest [= _ <-].
        specialize (Hlen k0 r0 eq_refl). simpl. lia.
      * destruct (unescape e); [| split; discriminate].
        destruct (IH s2) as [Hfed Hlen]; [simpl in Hn; lia |].
        destruct (scanstring s2) as [k0 r0| |]; simpl;
          [| split; discriminate | contradiction].
        split; [discriminate |]. intros k rest [= _ <-].
        specialize (Hlen k0 r0 eq_refl). simpl. lia.
    + destruct (N_of_ascii c <? 32)%N; [split; discriminate |].
      destruct (IH s1) as [Hfed Hlen]; [lia |].
      destruct (scanstring s1) as [k0 r0| |]; simpl;
        [| split; discriminate | contradiction].
      split; [discriminate |]. intros k rest [= _ <-].
      specialize (Hlen k0 r0 eq_refl). simpl. lia.
Qed.

Lemma scanstring_length (s rest : string) (k : option string) :
  scanstring s = Got k rest -> (String.length rest < String.length s)%nat.
Proof. apply (scanstring_length_fed (String.length s) s (le_n _)). Qed.

Lemma scanstring_fed (s : string) : scanstring s <> Starved.
Proof. apply (scanstring_length_fed (String.length s) s (le_n _)). Qed.

(** What the scanner leaves is no longer than what it was given. *)
Lemma scan_once_length (budget : nat) :
  forall (t : task) (s rest : string) (v : doc),
  scan_once budget t s = Got v rest -> (String.length rest <= String.length s)%nat.
Proof.
  induction budget as [|budget IH]; intros t s rest v; [discriminate |].
  cbn [scan_once]. destruct t as [| |pairs].
  - destruct (expect "034" s) as [s1|] eqn:E1.
    { apply expect_length in E1.
      destruct (scanstring s1) as [k r| |] eqn:E; try discriminate.
      apply scanstring_length in E. intros [= _ <-]. lia. }
    destruct (expect "{" s) as [s1|] eqn:E2.
    { apply expect_length in E2. pose proof (skip_ws_length s1).
      destruct (expect "}" (skip_ws s1)) as [r|] eqn:E3.
      { apply expect_length in E3. intros [= _ <-]. lia. }
      destruct (expect "034" (skip_ws s1)) as [r|] eqn:E4; [| discriminate].
      apply expect_length in E4. intros H'. apply IH in H'. lia. }
    destruct (expect "[" s) as [s1|] eqn:E3.
    { apply expect_length in E3. pose proof (skip_ws_length s1).
      destruct (expect "]" (skip_ws s1)) as [r|] eqn:E4.
      { apply expect_length in E4. intros [= _ <-]. lia. }
      intros H'. apply IH in H'. lia. }
    apply scan_scalar_length.
  - destruct (scan_once budget AtValue s) as [v1 r1| |] eqn:E; try discriminate.
    apply IH in E. pose proof (skip_ws_length r1).
    destruct (expect "]" (skip_ws r1)) as [r|] eqn:E1.
    { apply expect_length in E1. intros [= _ <-]. lia. }
    destruct (expect "," (skip_ws r1)) as [r|] eqn:E2; [| discriminate].
    apply expect_length in E2. pose proof (skip_ws_length r).
    intros H'. apply IH in H'. lia.
  - destruct (scanstring s) as [k r| |] eqn:E; try discriminate.
    apply scanstring_length in E. pose proof (skip_ws_length r).
    destruct (expect ":" (skip_ws r)) as [r1|] eqn:E1; [| discriminate].
    apply expect_length in E1. pose proof (skip_ws_length r1).
    destruct (scan_once budget AtValue (skip_ws r1)) as [v2 r2| |] eqn:E2;
      try discriminate.
    apply IH in E2. pose proof (skip_ws_length r2). cbv zeta.
    destruct (expect "}" (skip_ws r2)) as [r3|] eqn:E3.
    { apply expect_length in E3. intros [= _ <-]. lia. }
    destruct (expect "," (skip_ws r2)) as [r3|] eqn:E4; [| discriminate].
    apply expect_length in E4. pose proof (skip_ws_length r3).
    destruct (expect "034" (skip_ws r3)) as [r4|] eqn:E5; [| discriminate].
    apply expect_length in E5. intros H'. apply IH in H'. lia.
Qed.

Lemma scan_once_fed (budget : nat) :
  forall (t : task) (s : string),
  (needed t s <= budget)%nat -> scan_once budget t s <> Starved.
Proof.
  induction budget as [|budget IH]; intros t s Hb.
  - destruct t; simpl in Hb; lia.
  - cbn [scan_once]. destruct t as [| |pairs]; unfold needed in Hb.
    + destruct (expect "034" s) as [s1|] eqn:E1.
      { pose proof (scanstring_fed s1).
        destruct (scanstring s1); [discriminate | discriminate | contradiction]. }
      destruct (expect "{" s) as [s1|] eqn:E2.
      { apply expect_length in E2. pose proof (skip_ws_length s1).
        destruct (expect "}" (skip_ws s1)) as [r|] eqn:E3; [discriminate |].
        destruct (expect "034" (skip_ws s1)) as [r|] eqn:E4; [| discriminate].
        apply expect_length in E4. apply IH. unfold needed. lia. }
      destruct (expect "[" s) as [s1|] eqn:E3.
      { apply expect_length in E3. pose proof (skip_ws_length s1).
        destruct (expect "]" (skip_ws s1)) as [r|] eqn:E4; [discriminate |].
        apply IH. unfold needed. lia. }
      apply scan_scalar_fed.
    + pose proof (IH AtValue s) as Hv. unfold needed in Hv.
      destruct (scan_once budget AtValue s) as [v1 r1| |] eqn:E;
        [| discriminate | apply Hv; lia].
      apply scan_once_length in E. pose proof (skip_ws_length r1).
      destruct (expect "]" (skip_ws r1)) as [r|] eqn:E1; [discriminate |].
      destruct (expect "," (skip_ws r1)) as [r|] eqn:E2; [| discriminate].
      apply expect_length in E2. pose proof (skip_ws_length r).
      apply IH. unfold needed. lia.
    + pose proof (scanstring_fed s).
      destruct (scanstring s) as [k r| |] eqn:E;
        [| discriminate | contradiction].
      apply scanstring_length in E. pose proof (skip_ws_length r).
      destruct (expect ":" (skip_ws r)) as [r1|] eqn:E1; [| discriminate].
      apply expect_length in E1. pose proof (skip_ws_length r1).
      pose proof (IH AtValue (skip_ws r1)) as Hv. unfold needed in Hv.
      destruct (scan_once budget AtValue (skip_ws r1)) as [v2 r2| |] eqn:E2;
        [| discriminate | apply Hv; lia].
      apply scan_once_length in E2. pose proof (skip_ws_length r2). cbv zeta.
      destruct (expect "}" (skip_ws r2)) as [r3|] eqn:E3; [discriminate |].
      destruct (expect "," (skip_ws r2)) as [r3|] eqn:E4; [| discriminate].
      apply expect_length in E4. pose proof (skip_ws_length r3).
      destruct (expect "034" (skip_ws r3)) as [r4|] eqn:E5; [| discriminate].
      apply expect_length in E5. apply IH. unfold needed. lia.
Qed.

(** The budget [loads] hands out is never used up. *)
Lemma decode_never_starves (s : string) :
  scan_once (budget_for s) AtValue (skip_ws s) <> Starved.
Proof.
  apply scan_once_fed. unfold needed, budget_for.
  pose proof (skip_ws_length s). lia.
Qed.

(** A larger budget gives the same answer once the scanner was fed. *)
Lemma scan_once_stable (budget : nat) :
  forall (budget' : nat) (t : task) (s : string),
  (budget <= budget')%nat -> scan_once budget t s <> Starved ->
  scan_once budget' t s = scan_once budget t s.
Proof.
  induction budget as [|budget IH]; intros budget' t s Hle Hfed;
    [now contradiction Hfed |].
  destruct budget' as [|budget']; [lia |].
  assert (Hle' : (budget <= budget')%nat) by lia.
  cbn [scan_once] in *. destruct t as [| |pairs].
  - destruct (expect "034" s); [reflexivity |].
    destruct (expect "{" s) as [s1|].
    { destruct (expect "}" (skip_ws s1)); [reflexivity |].
      destruct (expect "034" (skip_ws s1)); [| reflexivity]. now apply IH. }
    destruct (expect "[" s) as [s1|]; [| reflexivity].
    destruct (expect "]" (skip_ws s1)); [reflexivity |]. now apply IH.
  - destruct (scan_once budget AtValue s) as [v1 r1| |] eqn:E;
      [| | now contradiction Hfed];
      (rewrite (IH budget' AtValue s Hle') by (rewrite E; discriminate));
      rewrite E; [| reflexivity].
    destruct (expect "]" (skip_ws r1)); [reflexivity |].
    destruct (expect "," (skip_ws r1)); [| reflexivity]. now apply IH.
  - destruct (scanstring s) as [k r| |]; [| reflexivity | reflexivity].
    destruct (expect ":" (skip_ws r)) as [r1|]; [| reflexivity].
    destruct (scan_once budget AtValue (skip_ws r1)) as [v2 r2| |] eqn:E;
      [| | now contradiction Hfed];
      (rewrite (IH budget' AtValue (skip_ws r1) Hle') by (rewrite E; discriminate));
      rewrite E; [| reflexivity].
    cbv zeta in *.
    destruct (expect "}" (skip_ws r2)); [reflexivity |].
    destruct (expect "," (skip_ws r2)) as [r3|]; [| reflexivity].
    destruct (expect "034" (skip_ws r3)); [| reflexivity]. now apply IH.
Qed.

(** [loads] with its own budget agrees with any larger one. *)
Lemma loads_budget (s : string) (budget : nat) :
  (budget_for s <= budget)%nat ->
  scan_once budget AtValue (skip_ws s) =
  scan_once (budget_for s) AtValue (skip_ws s).
Proof.
  intros H. apply scan_once_stable; [exact H | apply decode_never_starves].
Qed.

(** [loads] raises exactly when the scanner rejects the value or text
    other than whitespace follows it. *)
Lemma loads_malformed (s : string) :
  loads s = Malformed <->
  scan_once (budget_for s) AtValue (skip_ws s) = Bad \/
  exists v rest,
    scan_once (budget_for s) AtValue (skip_ws s) = Got v rest /\
    skip_ws rest <> EmptyString.
Proof.
  unfold loads. pose proof (decode_never_starves s) as Hfed.
  destruct (scan_once (budget_for s) AtValue (skip_ws s)) as [v rest| |];
    [| | now contradiction Hfed].
  - destruct (skip_ws rest) as [|c r] eqn:E.
    + split.
      * destruct v as [z|[d|]|]; discriminate.
      * intros [H | (v' & rest' & [= <- <-] & H)]; [discriminate |].
        now contradiction H.
    + split; [| reflexivity]. intros _. right. exists v, rest.
      split; [reflexivity |]. rewrite E. discriminate.
  - split; [now left | reflexivity].
Qed.

(** *** Decoded objects are dictionaries *)

Lemma scan_scalar_no_object (s rest : string) (members : option dict) :
  scan_scalar s <> Got (DObject members) rest.
Proof.
  unfold scan_scalar.
  repeat match goal with
  | |- context [after_word ?w s] => destruct (after_word w s); [discriminate |]
  end.
  destruct (match_number s) as [[v r]|] eqn:E.
  - unfold match_number in E.
    destruct (integer_part s) as [[i r0]|]; [| discriminate].
    destruct (fraction_part r0) as [r1|].
    + destruct (exponent_part r1); injection E as <- <-; discriminate.
    + destruct (exponent_part r0); injection E as <- <-; discriminate.
  - repeat match goal with
    | |- context [after_word ?w s] => destruct (after_word w s); [discriminate |]
    end.
    discriminate.
Qed.

(** The mapping an object decodes to has pairwise distinct keys. *)
Lemma scan_once_wf (budget : nat) :
  forall (t : task) (s rest : string) (d : dict),
  scan_once budget t s = Got (DObject (Some d)) rest ->
  match t with
  | AtValue => wf d
  | AtElement => False
  | AtMember (Some acc) => wf acc -> wf d
  | AtMember None => False
  end.
Proof.
  induction budget as [|budget IH]; intros t s rest d; [discriminate |].
  cbn [scan_once]. destruct t as [| |pairs].
  - destruct (expect "034" s) as [s1|].
    { destruct (scanstring s1); discriminate. }
    destruct (expect "{" s) as [s1|].
    { destruct (expect "}" (skip_ws s1)).
      { intros [= <- _]. apply NoDup_nil_2. }
      destruct (expect "034" (skip_ws s1)); [| discriminate].
      intros H. apply IH in H. apply H. apply NoDup_nil_2. }
    destruct (expect "[" s) as [s1|].
    { destruct (expect "]" (skip_ws s1)); [discriminate |].
      intros H. now apply IH in H. }
    intros H. now apply scan_scalar_no_object in H.
  - destruct (scan_once budget AtValue s) as [v1 r1| |]; try discriminate.
    destruct (expect "]" (skip_ws r1)); [discriminate |].
    destruct (expect "," (skip_ws r1)); [| discriminate].
    intros H. now apply IH in H.
  - destruct (scanstring s) as [key r| |]; try discriminate.
    destruct (expect ":" (skip_ws r)) as [r1|]; [| discriminate].
    destruct (scan_once budget AtValue (skip_ws r1)) as [v2 r2| |];
      try discriminate.
    cbv zeta.
    assert (Hpairs : match add_pair pairs key v2 with
                     | Some d' => match pairs with
                                  | Some acc => wf acc -> wf d'
                                  | None => False
                                  end
                     | None => True
                     end).
    { destruct pairs as [acc|]; [| exact I].
      destruct key as [k|]; [| exact I].
      destruct v2; simpl; auto. intros Hacc. now apply wf_setitem. }
    destruct (expect "}" (skip_ws r2)).
    { intros [= E _]. rewrite E in Hpairs. exact Hpairs. }
    destruct (expect "," (skip_ws r2)) as [r3|]; [| discriminate].
    destruct (expect "034" (skip_ws r3)); [| discriminate].
    intros H. apply IH in H.
    destruct (add_pair pairs key v2) as [acc'|]; [| contradiction].
    destruct pairs as [acc|]; [| contradiction]. auto.
Qed.

Lemma loads_wf (s : string) (d : dict) : loads s = Table d -> wf d.
Proof.
  unfold loads.
  destruct (scan_once (budget_for s) AtValue (skip_ws s)) as [v rest| |] eqn:E;
    try discriminate.
  destruct (skip_ws rest); [| discriminate].
  destruct v as [z|[d'|]|]; try discriminate.
  intros [= <-]. now apply scan_once_wf in E.
Qed.

End JsonFacts.

(* ===================================================================== *)
(** ** Saving and loading *)
(* ===================================================================== *)

Module PersistenceFacts.
Import Py Inventory DictFacts JsonFacts TableFacts.

(** [save_data] succeeds exactly where [open] lets it write. *)
Lemma save_data_returns (self : InventoryManager) (w : world)
    (file : option string) :
  let path := match file with None => default_file | Some f => f end in
  result (fst (save_data self w file)) = Return tt <->
  files w !! path <> Some Denied /\ files w !! path <> Some Orphan.
Proof.
  unfold save_data. simpl.
  destruct (files w !! match file with None => default_file | Some f => f end)
    as [[text| |]|]; simpl;
    (split; [intros H; try discriminate H; split; discriminate
            | intros [H1 H2]; try reflexivity; congruence]).
Qed.

(** [save_data] never touches the table, and a failed save leaves the
    files alone. *)
Lemma save_data_table (self : InventoryManager) (w : world)
    (file : option string) :
  after (fst (save_data self w file)) = self /\
  (result (fst (save_data self w file)) <> Return tt ->
   files (snd (save_data self w file)) = files w).
Proof.
  unfold save_data.
  destruct (files w !! match file with None => default_file | Some f => f end)
    as [[text| |]|]; simpl; split; auto; intros H; congruence.
Qed.

(** C5. Round trip: for every table [T] (a dictionary, its keys
    pairwise distinct), a [save_data(path)] that completes followed by
    [load_data(path)] on the same path leaves exactly [T] in the table:
    the same keys with the same quantities, in the same order.  The
    object that loads may be the one that saved or any other. *)
Theorem save_load_round_trip (self other : InventoryManager) (w : world)
    (file : option string) :
  wf (stock_data self) ->
  result (fst (save_data self w file)) = Return tt ->
  let w' := snd (save_data self w file) in
  load_data other w' file =
  Completed (Call (Return tt) {| stock_data := stock_data self |}) w'.
Proof.
  intros Hwf Hsaved w'. subst w'.
  assert (Hw : snd (save_data self w file) =
               write (match file with None => default_file | Some f => f end)
                     (Json.dumps (stock_data self)) w).
  { unfold save_data in *.
    destruct (files w !! match file with None => default_file | Some f => f end)
      as [[text| |]|]; simpl in *; congruence. }
  rewrite Hw. unfold load_data, write. simpl.
  rewrite lookup_insert_eq. now rewrite (loads_dumps _ Hwf).
Qed.

Lemma save_load_round_trip_witness :
  let T := {| stock_data := [("apple", 7); ("banana", 3)] |} in
  let w := {| files := ∅; stdout := [] |} in
  load_data init (snd (save_data T w None)) None =
  Completed (Call (Return tt) T) (snd (save_data T w None)).
Proof.
  intros T w.
  apply (save_load_round_trip T init w None).
  - unfold wf. apply (bool_decide_unpack (NoDup _)). vm_compute. exact I.
  - reflexivity.
Defined.

(** C7. For every path that names no file, [load_data(path)] raises
    nothing: it returns, the table is the empty one, and the warning is
    printed. *)
Theorem load_data_missing_file (self : InventoryManager) (w : world)
    (file : string) :
  no_file w file ->
  load_data self w (Some file) =
  Completed (Call (Return tt) {| stock_data := [] |})
            (print (Warning_not_found file) w).
Proof.
  unfold load_data. intros [H | H]; now rewrite H.
Qed.

Lemma load_data_missing_file_witness :
  load_data {| stock_data := [("apple", 7)] |}
            {| files := ∅; stdout := [] |} (Some "inventory.json") =
  Completed (Call (Return tt) {| stock_data := [] |})
            {| files := ∅; stdout := [Warning_not_found "inventory.json"] |}.
Proof.
  apply (load_data_missing_file {| stock_data := [("apple", 7)] |}
           {| files := ∅; stdout := [] |} "inventory.json").
  left. reflexivity.
Defined.

(** C8. For every path that names a file whose text [json.load]
    rejects, [load_data(path)] raises [JSONDecodeError] after printing
    the diagnostic, and the table is the one from before the call. *)
Theorem load_data_malformed (self : InventoryManager) (w : world)
    (file text : string) :
  files w !! file = Some (File text) ->
  Json.loads text = Json.Malformed ->
  load_data self w (Some file) =
  Completed (Call (Raise JSONDecodeError) self)
            (print (Error_invalid_json file) w).
Proof.
  unfold load_data. intros Hfile Htext. now rewrite Hfile, Htext.
Qed.

Lemma load_data_malformed_witness :
  let self := {| stock_data := [("apple", 7)] |} in
  let w := {| files := {["inventory.json" := File "{ apple: 7"]};
              stdout := [] |} in
  load_data self w (Some "inventory.json") =
  Completed (Call (Raise JSONDecodeError) self)
            (print (Error_invalid_json "inventory.json") w).
Proof.
  intros self w.
  apply (load_data_malformed self w "inventory.json" "{ apple: 7");
    reflexivity.
Defined.

End PersistenceFacts.

(* ===================================================================== *)
(** ** The table invariant *)
(* ===================================================================== *)

Module InvariantFacts.
Import Py Inventory DictFacts JsonFacts TableFacts PersistenceFacts.

Lemma lookup_in (d : dict) (k : string) (v : Z) :
  lookup k d = Some v -> In (k, v) d.
Proof.
  induction d as [|[k0 v0] d IH]; simpl; [discriminate |].
  destruct (String.eqb k k0) eqn:E.
  - apply String.eqb_eq in E. intros [= ->]. subst. now left.
  - intros H. right. now apply IH.
Qed.

Lemma nonnegative_in (d : dict) :
  nonnegative_stock d <->
  forall item, In item d -> valid_name (fst item) /\ 0 <= snd item.
Proof. unfold nonnegative_stock. now rewrite List.Forall_forall. Qed.

Lemma nonnegative_get (d : dict) (k : string) :
  nonnegative_stock d -> 0 <= get d k 0.
Proof.
  intros H. unfold get. destruct (lookup k d) as [v|] eqn:E; [| lia].
  apply lookup_in in E. apply (proj1 (nonnegative_in d) H) in E. tauto.
Qed.

Lemma nonnegative_setitem (d : dict) (k : string) (v : Z) :
  nonnegative_stock d -> valid_name k -> 0 <= v ->
  nonnegative_stock (setitem d k v).
Proof.
  intros Hd Hk Hv. apply nonnegative_in. intros item Hin.
  apply in_setitem in Hin as [Hin | ->]; [| now split].
  now apply (proj1 (nonnegative_in d) Hd).
Qed.

Lemma in_delitem_other (d : dict) (k : string) (item : string * Z) :
  In item (delitem d k) -> In item d /\ fst item <> k.
Proof.
  induction d as [|[k0 v0] d IH]; simpl; [tauto |].
  destruct (String.eqb k k0) eqn:E.
  - intros H. apply IH in H. tauto.
  - apply String.eqb_neq in E. intros [<- | H].
    + split; [now left | simpl; congruence].
    + apply IH in H. tauto.
Qed.

Lemma nonnegative_assign (items : dict) :
  forall acc : dict,
  nonnegative_stock items -> nonnegative_stock acc ->
  nonnegative_stock (Json.assign items acc).
Proof.
  unfold Json.assign.
  induction items as [|[k v] items IH]; intros acc Hitems Hacc; simpl; auto.
  apply Forall_cons in Hitems as [[Hk Hv] Hitems]. simpl in Hk, Hv.
  apply IH; [assumption |]. now apply nonnegative_setitem.
Qed.

(** [add_item] keeps the invariant, whether it returns or raises. *)
Lemma add_item_keeps (self : InventoryManager) (now : string)
    (item qty : value) (logs : option (list string)) :
  nonnegative_stock (stock_data self) ->
  nonnegative_stock (stock_data (after (fst (add_item self now item qty logs)))).
Proof.
  intros H. unfold add_item.
  destruct item as [| | | |name]; simpl; auto.
  destruct (truthy (strip name)) eqn:Hname; simpl; auto.
  destruct (isinstance_int qty); simpl; auto.
  destruct (int_of qty <? 0) eqn:Hqty; simpl; auto.
  apply Z.ltb_ge in Hqty.
  apply nonnegative_setitem; auto.
  pose proof (nonnegative_get _ name H). lia.
Qed.

(** [remove_item] keeps the invariant, and what it stores is positive. *)
Lemma remove_item_keeps (self : InventoryManager) (item qty : value) :
  nonnegative_stock (stock_data self) ->
  nonnegative_stock (stock_data (after (remove_item self item qty))).
Proof.
  intros H. unfold remove_item.
  destruct (negb (isinstance_int qty) || (int_of qty <? 0)); simpl; auto.
  destruct (contains (stock_data self) item) eqn:Hin; simpl; auto.
  destruct item as [| | | |name]; simpl; auto.
  apply contains_str in Hin as [q Hq].
  rewrite (get_lookup _ _ _ Hq).
  rewrite (get_lookup _ _ _ (lookup_setitem_eq _ _ _)).
  assert (Hname : valid_name name).
  { apply lookup_in in Hq. now apply (proj1 (nonnegative_in _) H) in Hq. }
  destruct (q - int_of qty <=? 0) eqn:E; simpl.
  - apply nonnegative_in. intros it Hit.
    apply in_delitem_other in Hit as [Hit Hne].
    apply in_setitem in Hit as [Hit | ->]; [| now contradiction Hne].
    now apply (proj1 (nonnegative_in _) H).
  - apply Z.leb_gt in E. apply nonnegative_setitem; auto. lia.
Qed.

(** One call keeps the table and the files fit. *)
Lemma step_keeps (self : InventoryManager) (w : world) (o : op) :
  nonnegative_stock (stock_data self) -> files_fit w ->
  exists self' w',
    step (self, w) o = Some (self', w') /\
    nonnegative_stock (stock_data self') /\ files_fit w'.
Proof.
  intros Hself Hw. destruct o as [now item qty logs|item qty|item|t|file|file];
    simpl.
  - eexists _, _. split; [reflexivity |]. split; [| assumption].
    now apply add_item_keeps.
  - eexists _, _. split; [reflexivity |]. split; [| assumption].
    now apply remove_item_keeps.
  - eexists _, _. split; [reflexivity |]. split; [| assumption].
    unfold get_qty. now destruct (negb _).
  - eexists _, _. split; [reflexivity |]. now split.
  - unfold load_data.
    destruct (files w !! match file with None => default_file | Some f => f end)
      as [[text| |]|] eqn:Hfile.
    + pose proof (Hw _ _ Hfile) as Hfit.
      destruct (Json.loads text) as [d| |]; [| contradiction |];
        eexists _, _; (split; [reflexivity |]); (split; [assumption |]);
        exact Hw.
    + eexists _, _. split; [reflexivity |]. now split.
    + eexists _, _. split; [reflexivity |]. split; [constructor | assumption].
    + eexists _, _. split; [reflexivity |]. split; [constructor | assumption].
  - unfold save_data.
    destruct (files w !! match file with None => default_file | Some f => f end)
      as [[text| |]|] eqn:Hfile;
      eexists _, _; (split; [reflexivity |]); (split; [assumption |]);
      try assumption;
      intros f text' Hf; simpl in Hf;
      (destruct (decide (match file with None => default_file | Some f0 => f0 end = f))
         as [<- | Hne];
       [ rewrite lookup_insert_eq in Hf; injection Hf as <-;
         rewrite loads_dumps_assign;
         apply nonnegative_assign; [assumption | constructor]
       | rewrite lookup_insert_ne in Hf by assumption; now apply (Hw f) ]).
Qed.

(** Every table a sequence of calls can reach is a dictionary. *)
Lemma step_keeps_wf (self self' : InventoryManager) (w w' : world) (o : op) :
  wf (stock_data self) -> step (self, w) o = Some (self', w') ->
  wf (stock_data self').
Proof.
  intros Hwf. destruct o as [now item qty logs|item qty|item|t|file|file];
    simpl.
  - intros [= <- _]. unfold add_item.
    destruct item as [| | | |name]; simpl; auto.
    destruct (truthy (strip name)); simpl; auto.
    destruct (isinstance_int qty); simpl; auto.
    destruct (int_of qty <? 0); simpl; auto. now apply wf_setitem.
  - intros [= <- _]. unfold remove_item.
    destruct (negb (isinstance_int qty) || (int_of qty <? 0)); simpl; auto.
    destruct (contains (stock_data self) item); simpl; auto.
    destruct item as [| | | |name]; simpl; auto.
    destruct (get _ name 0 <=? 0); simpl.
    + apply wf_delitem. now apply wf_setitem.
    + now apply wf_setitem.
  - intros [= <- _]. unfold get_qty. now destruct (negb _).
  - now intros [= <- _].
  - unfold load_data.
    destruct (files w !! match file with None => default_file | Some f => f end)
      as [[text| |]|].
    + destruct (Json.loads text) as [d| |] eqn:E; [| discriminate |].
      * intros [= <- _]. simpl. now apply loads_wf in E.
      * now intros [= <- _].
    + now intros [= <- _].
    + intros [= <- _]. apply NoDup_nil_2.
    + intros [= <- _]. apply NoDup_nil_2.
  - unfold save_data.
    destruct (files w !! match file with None => default_file | Some f => f end)
      as [[text| |]|]; now intros [= <- _].
Qed.

Lemma run_keeps_wf (ops : list op) :
  forall (self self' : InventoryManager) (w w' : world),
  wf (stock_data self) -> run (self, w) ops = Some (self', w') ->
  wf (stock_data self').
Proof.
  induction ops as [|o ops IH]; intros self self' w w' Hwf; cbn [run].
  - now intros [= <- _].
  - destruct (step (self, w) o) as [[self1 w1]|] eqn:E; [| discriminate].
    apply (IH self1 self' w1 w'). eapply step_keeps_wf; eauto.
Qed.

(** Starting from the empty table violates the invariant as the
    specification words it: a zero quantity is stored by [add_item], and
    [load_data] stores whatever the file holds. *)
Lemma positive_stock_not_kept :
  let w := {| files := {["inventory.json" :=
                           File (String "{" (String "034" (String "034" ": -1}")))]};
              stdout := [] |} in
  (run (init, w) [AddItem "2026-01-01" (VStr "apple") (VInt 0) None] =
     Some ({| stock_data := [("apple", 0)] |}, w) /\
   ~ positive_stock [("apple", 0)]) /\
  (run (init, w) [LoadData None] =
     Some ({| stock_data := [(EmptyString, -1)] |}, w) /\
   ~ positive_stock [(EmptyString, -1)]).
Proof.
  intros w. split; (split; [reflexivity |]); intros H;
    apply Forall_cons in H as [[Hname Hqty] _]; simpl in *; [lia | discriminate].
Qed.

(** C1, amended. After any sequence of calls of [add_item],
    [remove_item], [load_data] (and of the other methods) that starts
    from the empty table, where every regular file at the start is
    malformed or holds a table of this kind, every stored value is
    [>= 0] and every key is a string that is non-empty after trimming;
    the sequence never leaves the data model. *)
Theorem nonnegative_stock_kept (ops : list op) (w : world) :
  files_fit w ->
  exists self' w',
    run (init, w) ops = Some (self', w') /\
    nonnegative_stock (stock_data self') /\ files_fit w'.
Proof.
  assert (G : forall ops self w,
            nonnegative_stock (stock_data self) -> files_fit w ->
            exists self' w',
              run (self, w) ops = Some (self', w') /\
              nonnegative_stock (stock_data self') /\ files_fit w').
  { clear ops w. induction ops as [|o ops IH]; intros self w Hself Hw.
    - exists self, w. now split.
    - destruct (step_keeps self w o Hself Hw) as (self1 & w1 & E & H1 & H2).
      cbn [run]. rewrite E. now apply IH. }
  intros Hw. apply G; [constructor | assumption].
Qed.

Lemma nonnegative_stock_kept_witness :
  exists self' w',
    run (init, {| files := ∅; stdout := [] |})
        [AddItem "2026-01-01" (VStr "apple") (VInt 0) None;
         SaveData None; RemoveItem (VStr "apple") (VInt 0); LoadData None] =
    Some (self', w') /\
    nonnegative_stock (stock_data self') /\ files_fit w'.
Proof.
  apply (nonnegative_stock_kept
           [AddItem "2026-01-01" (VStr "apple") (VInt 0) None;
            SaveData None; RemoveItem (VStr "apple") (VInt 0); LoadData None]
           {| files := ∅; stdout := [] |}).
  intros file text H. simpl in H. rewrite lookup_empty in H. discriminate.
Defined.

End InvariantFacts.

(* ===================================================================== *)
(** ** How calls on the table compose *)
(* ===================================================================== *)

Module CompositionFacts.
Import Py Inventory DictFacts JsonFacts TableFacts PersistenceFacts InvariantFacts.

Lemma setitem_setitem (d : dict) (k : string) (v v' : Z) :
  setitem (setitem d k v) k v' = setitem d k v'.
Proof.
  induction d as [|[k0 v0] d IH]; simpl.
  - now rewrite String.eqb_refl.
  - destruct (String.eqb k k0) eqn:E; simpl; rewrite E; [reflexivity |].
    now rewrite IH.
Qed.

Lemma setitem_same (d : dict) (k : string) (v : Z) :
  lookup k d = Some v -> setitem d k v = d.
Proof.
  induction d as [|[k0 v0] d IH]; simpl; [discriminate |].
  destruct (String.eqb k k0) eqn:E.
  - now intros [= ->].
  - intros H. now rewrite IH.
Qed.

Lemma delitem_fresh (d : dict) (k : string) :
  lookup k d = None -> delitem d k = d.
Proof.
  induction d as [|[k0 v0] d IH]; simpl; [reflexivity |].
  destruct (String.eqb k k0); [discriminate |].
  intros H. now rewrite IH.
Qed.

Lemma delitem_setitem_fresh (d : dict) (k : string) (v : Z) :
  lookup k d = None -> delitem (setitem d k v) k = d.
Proof.
  induction d as [|[k0 v0] d IH]; simpl.
  - now rewrite String.eqb_refl.
  - destruct (String.eqb k k0) eqn:E; [discriminate |].
    intros H. simpl. rewrite E. now rewrite IH.
Qed.

Lemma after_stock (self : InventoryManager) (d : dict) :
  d = stock_data self -> {| stock_data := d |} = self.
Proof. intros ->. now destruct self. Qed.

Lemma remove_item_stock (d : dict) (name : string) (q : Z) (qty : value) :
  lookup name d = Some q -> isinstance_int qty = true -> 0 <= int_of qty ->
  remove_item {| stock_data := d |} (VStr name) qty =
  Call (Return true)
    {| stock_data := if q - int_of qty <=? 0
                     then delitem (setitem d name (q - int_of qty)) name
                     else setitem d name (q - int_of qty) |}.
Proof.
  intros Hq Hint Hqty.
  now rewrite (remove_item_valid {| stock_data := d |} name q qty Hq Hint Hqty).
Qed.

Lemma add_item_stock (d : dict) (now name : string) (qty : value)
    (logs : option (list string)) :
  valid_name name -> isinstance_int qty = true -> 0 <= int_of qty ->
  fst (add_item {| stock_data := d |} now (VStr name) qty logs) =
  Call (Return true)
    {| stock_data := setitem d name (get d name 0 + int_of qty) |}.
Proof.
  intros Hname Hint Hqty.
  now rewrite (add_item_valid {| stock_data := d |} now name qty logs
                 Hname Hint Hqty).
Qed.

(** What is stored under the other names after [add_item]. *)
Lemma add_item_lookup_other (self : InventoryManager) (now : string)
    (item qty : value) (logs : option (list string)) (k : string) :
  item <> VStr k ->
  lookup k (stock_data (after (fst (add_item self now item qty logs)))) =
  lookup k (stock_data self).
Proof.
  intros Hk. unfold add_item.
  destruct item as [| | | |name]; simpl; auto.
  destruct (truthy (strip name)); simpl; auto.
  destruct (isinstance_int qty); simpl; auto.
  destruct (int_of qty <? 0); simpl; auto.
  apply lookup_setitem_ne. congruence.
Qed.

Lemma remove_item_lookup_other (self : InventoryManager)
    (item qty : value) (k : string) :
  item <> VStr k ->
  lookup k (stock_data (after (remove_item self item qty))) =
  lookup k (stock_data self).
Proof.
  intros Hk. unfold remove_item.
  destruct (negb (isinstance_int qty) || (int_of qty <? 0)); simpl; auto.
  destruct (negb (contains (stock_data self) item)); simpl; auto.
  destruct item as [| | | |name]; simpl; auto.
  assert (Hne : name <> k) by congruence.
  destruct (get _ name 0 <=? 0); simpl.
  - rewrite lookup_delitem_ne by assumption. now apply lookup_setitem_ne.
  - now apply lookup_setitem_ne.
Qed.

(** X1. Whatever [add_item] and [remove_item] do to the item they are
    called with, and whether they return or raise, the quantity stored
    under every other name stays as it was. *)
Theorem other_items_untouched (self : InventoryManager) (now : string)
    (item qty : value) (logs : option (list string)) (k : string) :
  item <> VStr k ->
  lookup k (stock_data (after (fst (add_item self now item qty logs)))) =
    lookup k (stock_data self) /\
  lookup k (stock_data (after (remove_item self item qty))) =
    lookup k (stock_data self).
Proof.
  intros Hk. split.
  - now apply add_item_lookup_other.
  - now apply remove_item_lookup_other.
Qed.

Lemma other_items_untouched_witness :
  let self := {| stock_data := [("apple", 10); ("banana", 3)] |} in
  lookup "banana"
    (stock_data (after (fst (add_item self "2026-01-01" (VStr "apple")
                               (VInt 5) None)))) = Some 3 /\
  lookup "banana"
    (stock_data (after (remove_item self (VStr "apple") (VInt 5)))) = Some 3.
Proof.
  intros self.
  apply (other_items_untouched self "2026-01-01" (VStr "apple") (VInt 5)
           None "banana").
  discriminate.
Defined.


(** X2. A successful [add_item] never reorders the table: a name that is
    present keeps its place, a new name goes to the end. *)
Theorem add_item_keeps_order (self : InventoryManager) (now name : string)
    (qty : value) (logs : option (list string)) :
  valid_name name -> isinstance_int qty = true -> 0 <= int_of qty ->
  map fst (stock_data (after (fst (add_item self now (VStr name) qty logs)))) =
  match lookup name (stock_data self) with
  | Some _ => map fst (stock_data self)
  | None => (map fst (stock_data self) ++ [name])%list
  end.
Proof.
  intros Hname Hint Hqty.
  rewrite (add_item_valid self now name qty logs Hname Hint Hqty). simpl.
  apply keys_setitem.
Qed.

Lemma add_item_keeps_order_witness :
  let self := {| stock_data := [("apple", 10); ("banana", 3)] |} in
  map fst (stock_data (after (fst (add_item self "2026-01-01" (VStr "apple")
                                     (VInt 5) None)))) =
    ["apple"; "banana"]%string /\
  map fst (stock_data (after (fst (add_item self "2026-01-01" (VStr "cherry")
                                     (VInt 5) None)))) =
    ["apple"; "banana"; "cherry"]%string.
Proof.
  intros self. split.
  - apply (add_item_keeps_order self "2026-01-01" "apple" (VInt 5) None);
      [reflexivity | reflexivity | simpl; lia].
  - apply (add_item_keeps_order self "2026-01-01" "cherry" (VInt 5) None);
      [reflexivity | reflexivity | simpl; lia].
Defined.

(** X3. The log list: a successful [add_item] appends exactly one entry,
    [now: Added qty of item], behind what the list held; a rejected call
    appends nothing; without a list from the caller the entry goes to a
    fresh one. *)
Theorem add_item_logs_once (self : InventoryManager) (now : string)
    (item qty : value) (logs : option (list string)) :
  let held := match logs with None => [] | Some l => l end in
  let c := add_item self now item qty logs in
  (forall name, item = VStr name -> result (fst c) = Return true ->
     snd c = (held ++ [now +:+ ": Added " +:+ format_int qty +:+ " of "
                         +:+ name])%list) /\
  (result (fst c) <> Return true -> snd c = held).
Proof.
  intros held c. subst held c. unfold add_item.
  destruct item as [| | | |name]; simpl;
    try (split; [intros name [=] | reflexivity]).
  destruct (truthy (strip name)); simpl;
    [| split; [intros n _ [=] | reflexivity]].
  destruct (isinstance_int qty); simpl;
    [| split; [intros n _ [=] | reflexivity]].
  destruct (int_of qty <? 0); simpl;
    [split; [intros n _ [=] | reflexivity] |].
  split; [now intros n [= <-] _ | intros H; now contradiction H].
Qed.

Lemma add_item_logs_once_witness :
  snd (add_item init "2026-01-01" (VStr "apple") (VInt 10) (Some ["earlier"%string]))
    = ["earlier"; "2026-01-01: Added 10 of apple"]%string /\
  snd (add_item init "2026-01-01" (VStr "apple") (VInt (-1)) (Some ["earlier"%string]))
    = ["earlier"%string].
Proof.
  split.
  - destruct (add_item_logs_once init "2026-01-01" (VStr "apple") (VInt 10)
                (Some ["earlier"%string])) as (H & _).
    apply (H "apple"%string); reflexivity.
  - destruct (add_item_logs_once init "2026-01-01" (VStr "apple") (VInt (-1))
                (Some ["earlier"%string])) as (_ & H).
    apply H. discriminate.
Defined.

(** X4. Adding a quantity and removing the same quantity gives the
    table back, for an item that was absent or stocked with a positive
    quantity. *)
Theorem add_then_remove_restores (self : InventoryManager) (now name : string)
    (qty : value) (logs : option (list string)) :
  valid_name name -> isinstance_int qty = true -> 0 <= int_of qty ->
  (lookup name (stock_data self) = None \/
   exists q, lookup name (stock_data self) = Some q /\ 0 < q) ->
  after (remove_item (after (fst (add_item self now (VStr name) qty logs)))
           (VStr name) qty) = self.
Proof.
  intros Hname Hint Hqty Hstock.
  rewrite (add_item_valid self now name qty logs Hname Hint Hqty).
  cbn [after].
  rewrite (remove_item_stock _ name (get (stock_data self) name 0 + int_of qty)
             qty (lookup_setitem_eq _ _ _) Hint Hqty).
  cbn [after stock_data]. rewrite setitem_setitem.
  replace (get (stock_data self) name 0 + int_of qty - int_of qty)
    with (get (stock_data self) name 0) by lia.
  apply after_stock. unfold get.
  destruct Hstock as [Habsent | (q & Hq & Hpos)].
  - rewrite Habsent. simpl. now apply delitem_setitem_fresh.
  - rewrite Hq. destruct (q <=? 0) eqn:E; [apply Z.leb_le in E; lia |].
    now apply setitem_same.
Qed.

Lemma add_then_remove_restores_witness :
  let self := {| stock_data := [("apple", 10); ("banana", 3)] |} in
  after (remove_item (after (fst (add_item self "2026-01-01" (VStr "cherry")
                                    (VInt 4) None)))
           (VStr "cherry") (VInt 4)) = self.
Proof.
  intros self.
  apply (add_then_remove_restores self "2026-01-01" "cherry" (VInt 4) None);
    [reflexivity | reflexivity | simpl; lia | left; reflexivity].
Defined.

(** X5. Quantities accumulate: adding [a] and then [b] leaves the table
    that adding [a + b] at once leaves. *)
Theorem add_item_accumulates (self : InventoryManager) (now now' name : string)
    (a b : Z) (logs logs' : option (list string)) :
  valid_name name -> 0 <= a -> 0 <= b ->
  after (fst (add_item
                (after (fst (add_item self now (VStr name) (VInt a) logs)))
                now' (VStr name) (VInt b) logs')) =
  after (fst (add_item self now (VStr name) (VInt (a + b)) logs)).
Proof.
  intros Hname Ha Hb.
  rewrite (add_item_valid self now name (VInt a) logs Hname eq_refl Ha).
  rewrite (add_item_valid self now name (VInt (a + b)) logs Hname eq_refl)
    by (simpl; lia).
  cbn [after].
  rewrite (add_item_stock _ now' name (VInt b) logs' Hname eq_refl Hb).
  cbn [after stock_data int_of]. rewrite setitem_setitem.
  rewrite (get_lookup _ _ _ (lookup_setitem_eq _ _ _)).
  f_equal. f_equal. lia.
Qed.

Lemma add_item_accumulates_witness :
  after (fst (add_item
                (after (fst (add_item init "2026-01-01" (VStr "apple")
                               (VInt 2) None)))
                "2026-01-02" (VStr "apple") (VInt 3) None)) =
  after (fst (add_item init "2026-01-01" (VStr "apple") (VInt (2 + 3)) None)).
Proof.
  apply (add_item_accumulates init "2026-01-01" "2026-01-02" "apple" 2 3
           None None); [reflexivity | lia | lia].
Defined.

(** X6. Removals accumulate as long as the first leaves the item in the
    table: removing [a < q] and then [b] leaves the table that removing
    [a + b] at once leaves. *)
Theorem remove_item_accumulates (self : InventoryManager) (name : string)
    (q a b : Z) :
  lookup name (stock_data self) = Some q -> 0 <= a -> 0 <= b -> a < q ->
  after (remove_item (after (remove_item self (VStr name) (VInt a)))
           (VStr name) (VInt b)) =
  after (remove_item self (VStr name) (VInt (a + b))).
Proof.
  intros Hq Ha Hb Hlt.
  rewrite (remove_item_valid self name q (VInt a) Hq eq_refl Ha).
  rewrite (remove_item_valid self name q (VInt (a + b)) Hq eq_refl)
    by (simpl; lia).
  cbn [after stock_data int_of].
  destruct (q - a <=? 0) eqn:E; [apply Z.leb_le in E; lia |].
  rewrite (remove_item_stock _ name (q - a) (VInt b)
             (lookup_setitem_eq _ _ _) eq_refl Hb).
  cbn [after stock_data int_of]. rewrite setitem_setitem.
  now replace (q - a - b) with (q - (a + b)) by lia.
Qed.

Lemma remove_item_accumulates_witness :
  let self := {| stock_data := [("apple", 10)] |} in
  after (remove_item (after (remove_item self (VStr "apple") (VInt 3)))
           (VStr "apple") (VInt 7)) =
  after (remove_item self (VStr "apple") (VInt (3 + 7))).
Proof.
  intros self.
  apply (remove_item_accumulates self "apple" 10 3 7);
    [reflexivity | lia | lia | lia].
Defined.

(** X7. The quantity 0 on a stocked item: [add_item(item, 0)] leaves the
    table as it is (only the log entry is written), and so does
    [remove_item(item, 0)] when the stored quantity is positive; on an
    entry that stores 0, [remove_item(item, 0)] deletes it. *)
Theorem zero_quantity_on_stocked_item (self : InventoryManager)
    (now name : string) (q : Z) (logs : option (list string)) :
  valid_name name -> lookup name (stock_data self) = Some q ->
  after (fst (add_item self now (VStr name) (VInt 0) logs)) = self /\
  (0 < q -> after (remove_item self (VStr name) (VInt 0)) = self) /\
  (q = 0 -> lookup name
              (stock_data (after (remove_item self (VStr name) (VInt 0)))) =
            None).
Proof.
  intros Hname Hq. split; [| split].
  - rewrite (add_item_valid self now name (VInt 0) logs Hname eq_refl)
      by (simpl; lia).
    cbn [after int_of]. apply after_stock.
    rewrite (get_lookup _ _ _ Hq). apply setitem_same.
    rewrite Hq. f_equal. lia.
  - intros Hpos.
    rewrite (remove_item_valid self name q (VInt 0) Hq eq_refl)
      by (simpl; lia).
    cbn [after int_of stock_data].
    destruct (q - 0 <=? 0) eqn:E; [apply Z.leb_le in E; lia |].
    apply after_stock. apply setitem_same. rewrite Hq. f_equal. lia.
  - intros ->.
    rewrite (remove_item_valid self name 0 (VInt 0) Hq eq_refl)
      by (simpl; lia).
    cbn [after int_of stock_data]. simpl. apply lookup_delitem_eq.
Qed.

Lemma zero_quantity_on_stocked_item_witness :
  let self := {| stock_data := [("apple", 10)] |} in
  after (fst (add_item self "2026-01-01" (VStr "apple") (VInt 0) None)) = self /\
  after (remove_item self (VStr "apple") (VInt 0)) = self.
Proof.
  intros self.
  destruct (zero_quantity_on_stocked_item self "2026-01-01" "apple" 10 None)
    as (Hadd & Hremove & _); [reflexivity | reflexivity |].
  split; [exact Hadd | apply Hremove; lia].
Defined.

End CompositionFacts.

(* ===================================================================== *)
(** ** What the table methods keep and what they never do *)
(* ===================================================================== *)

Module BehaviourFacts.
Import Py Inventory DictFacts JsonFacts TableFacts PersistenceFacts InvariantFacts.

Lemma positive_in (d : dict) :
  positive_stock d <->
  forall item, In item d -> valid_name (fst item) /\ 0 < snd item.
Proof. unfold positive_stock. now rewrite List.Forall_forall. Qed.

Lemma positive_nonnegative (d : dict) :
  positive_stock d -> nonnegative_stock d.
Proof.
  intros H. apply nonnegative_in. intros item Hin.
  apply (proj1 (positive_in d) H) in Hin. split; [tauto | lia].
Qed.

Lemma positive_setitem (d : dict) (k : string) (v : Z) :
  positive_stock d -> valid_name k -> 0 < v -> positive_stock (setitem d k v).
Proof.
  intros Hd Hk Hv. apply positive_in. intros item Hin.
  apply in_setitem in Hin as [Hin | ->]; [| now split].
  now apply (proj1 (positive_in d) Hd).
Qed.

Lemma positive_assign (items : dict) :
  forall acc : dict,
  positive_stock items -> positive_stock acc ->
  positive_stock (Json.assign items acc).
Proof.
  unfold Json.assign.
  induction items as [|[k v] items IH]; intros acc Hitems Hacc; simpl; auto.
  apply Forall_cons in Hitems as [[Hk Hv] Hitems]. simpl in Hk, Hv.
  apply IH; [assumption |]. now apply positive_setitem.
Qed.

Lemma remove_item_positive (self : InventoryManager) (item qty : value) :
  positive_stock (stock_data self) ->
  positive_stock (stock_data (after (remove_item self item qty))).
Proof.
  intros H. unfold remove_item.
  destruct (negb (isinstance_int qty) || (int_of qty <? 0)); simpl; auto.
  destruct (contains (stock_data self) item) eqn:Hin; simpl; auto.
  destruct item as [| | | |name]; simpl; auto.
  apply contains_str in Hin as [q Hq].
  rewrite (get_lookup _ _ _ Hq).
  rewrite (get_lookup _ _ _ (lookup_setitem_eq _ _ _)).
  assert (Hname : valid_name name).
  { apply lookup_in in Hq. now apply (proj1 (positive_in _) H) in Hq. }
  destruct (q - int_of qty <=? 0) eqn:E; simpl.
  - apply positive_in. intros it Hit.
    apply in_delitem_other in Hit as [Hit Hne].
    apply in_setitem in Hit as [Hit | ->]; [| now contradiction Hne].
    now apply (proj1 (positive_in _) H).
  - apply Z.leb_gt in E. now apply positive_setitem.
Qed.

Lemma add_item_positive (self : InventoryManager) (now : string)
    (item qty : value) (logs : option (list string)) :
  positive_stock (stock_data self) ->
  isinstance_int qty && (int_of qty =? 0) = false ->
  positive_stock (stock_data (after (fst (add_item self now item qty logs)))).
Proof.
  intros H Hzero. unfold add_item.
  destruct item as [| | | |name]; simpl; auto.
  destruct (truthy (strip name)) eqn:Hname; simpl; auto.
  destruct (isinstance_int qty); simpl; auto.
  destruct (int_of qty <? 0) eqn:Hqty; simpl; auto.
  apply Z.ltb_ge in Hqty. simpl in Hzero. apply Z.eqb_neq in Hzero.
  apply positive_setitem; auto.
  pose proof (nonnegative_get _ name (positive_nonnegative _ H)). lia.
Qed.

Lemma add_item_positive_present (self : InventoryManager) (now : string)
    (item qty : value) (logs : option (list string)) :
  positive_stock (stock_data self) ->
  contains (stock_data self) item = true ->
  positive_stock (stock_data (after (fst (add_item self now item qty logs)))).
Proof.
  intros H Hin. unfold add_item.
  destruct item as [| | | |name]; simpl; auto.
  destruct (truthy (strip name)) eqn:Hname; simpl; auto.
  destruct (isinstance_int qty); simpl; auto.
  destruct (int_of qty <? 0) eqn:Hqty; simpl; auto.
  apply Z.ltb_ge in Hqty. apply contains_str in Hin as [q Hq].
  rewrite (get_lookup _ _ _ Hq).
  apply positive_setitem; auto.
  apply lookup_in in Hq. apply (proj1 (positive_in _) H) in Hq.
  simpl in Hq. lia.
Qed.

(** X8. The strict invariant, call by call: on a table whose quantities
    are all positive and whose names are all valid, the table after
    [remove_item] (returned or raised, whatever the arguments) is of
    that kind again, and so is the table after [add_item] unless the
    call adds the quantity 0 to an item that is absent. *)
Theorem calls_keep_positive_stock (self : InventoryManager) (now : string)
    (item qty : value) (logs : option (list string)) :
  positive_stock (stock_data self) ->
  positive_stock (stock_data (after (remove_item self item qty))) /\
  (isinstance_int qty && (int_of qty =? 0) = false \/
   contains (stock_data self) item = true ->
   positive_stock
     (stock_data (after (fst (add_item self now item qty logs))))).
Proof.
  intros H. split.
  - now apply remove_item_positive.
  - intros [Hzero | Hin].
    + now apply add_item_positive.
    + now apply add_item_positive_present.
Qed.

Lemma calls_keep_positive_stock_witness :
  let self := {| stock_data := [("apple", 10); ("banana", 3)] |} in
  positive_stock
    (stock_data (after (remove_item self (VStr "banana") (VInt 3)))) /\
  positive_stock
    (stock_data (after (fst (add_item self "2026-01-01" (VStr "banana")
                               (VInt 0) None)))).
Proof.
  intros self.
  destruct (calls_keep_positive_stock self "2026-01-01" (VStr "banana")
              (VInt 3) None) as (Hremove & _);
    [repeat constructor; simpl; lia |].
  destruct (calls_keep_positive_stock self "2026-01-01" (VStr "banana")
              (VInt 0) None) as (_ & Hadd);
    [repeat constructor; simpl; lia |].
  split; [exact Hremove | apply Hadd; right; reflexivity].
Defined.

Lemma step_keeps_positive (self : InventoryManager) (w : world) (o : op) :
  adds_no_zero o = true ->
  positive_stock (stock_data self) -> files_hold_positive w ->
  exists self' w',
    step (self, w) o = Some (self', w') /\
    positive_stock (stock_data self') /\ files_hold_positive w'.
Proof.
  intros Hop Hself Hw.
  destruct o as [now item qty logs|item qty|item|t|file|file]; simpl.
  - eexists _, _. split; [reflexivity |]. split; [| assumption].
    apply add_item_positive; [assumption |]. simpl in Hop.
    now apply negb_true_iff in Hop.
  - eexists _, _. split; [reflexivity |]. split; [| assumption].
    now apply remove_item_positive.
  - eexists _, _. split; [reflexivity |]. split; [| assumption].
    unfold get_qty. now destruct (negb _).
  - eexists _, _. split; [reflexivity |]. now split.
  - unfold load_data.
    destruct (files w !! match file with None => default_file | Some f => f end)
      as [[text| |]|] eqn:Hfile.
    + pose proof (Hw _ _ Hfile) as Hfit.
      destruct (Json.loads text) as [d| |]; [| contradiction |];
        eexists _, _; (split; [reflexivity |]); (split; [assumption |]);
        exact Hw.
    + eexists _, _. split; [reflexivity |]. now split.
    + eexists _, _. split; [reflexivity |]. split; [constructor | assumption].
    + eexists _, _. split; [reflexivity |]. split; [constructor | assumption].
  - unfold save_data.
    destruct (files w !! match file with None => default_file | Some f => f end)
      as [[text| |]|] eqn:Hfile;
      eexists _, _; (split; [reflexivity |]); (split; [assumption |]);
      try assumption;
      intros f text' Hf; simpl in Hf;
      (destruct (decide (match file with None => default_file | Some f0 => f0 end = f))
         as [<- | Hne];
       [ rewrite lookup_insert_eq in Hf; injection Hf as <-;
         rewrite loads_dumps_assign;
         apply positive_assign; [assumption | constructor]
       | rewrite lookup_insert_ne in Hf by assumption; now apply (Hw f) ]).
Qed.

(** X9. The strict invariant holds along every sequence of calls that
    never adds the quantity 0: starting from the empty table, with every
    regular file malformed or holding a table of positive quantities
    under valid names, every stored quantity stays positive and every
    name valid, whatever else is called and whichever calls raise. *)
Theorem positive_stock_kept_without_zero_adds (ops : list op) (w : world) :
  forallb adds_no_zero ops = true -> files_hold_positive w ->
  exists self' w',
    run (init, w) ops = Some (self', w') /\
    positive_stock (stock_data self') /\ files_hold_positive w'.
Proof.
  assert (G : forall ops self w,
            forallb adds_no_zero ops = true ->
            positive_stock (stock_data self) -> files_hold_positive w ->
            exists self' w',
              run (self, w) ops = Some (self', w') /\
              positive_stock (stock_data self') /\ files_hold_positive w').
  { clear ops w. induction ops as [|o ops IH]; intros self w Hops Hself Hw.
    - exists self, w. now split.
    - simpl in Hops. apply andb_true_iff in Hops as [Ho Hops].
      destruct (step_keeps_positive self w o Ho Hself Hw)
        as (self1 & w1 & E & H1 & H2).
      cbn [run]. rewrite E. now apply IH. }
  intros Hops Hw. apply G; [assumption | constructor | assumption].
Qed.

Lemma positive_stock_kept_without_zero_adds_witness :
  exists self' w',
    run (init, {| files := ∅; stdout := [] |})
        [AddItem "2026-01-01" (VStr "apple") (VInt 10) None;
         RemoveItem (VStr "apple") (VInt 3); SaveData None;
         RemoveItem (VStr "apple") (VInt 7); LoadData None] =
    Some (self', w') /\
    positive_stock (stock_data self') /\ files_hold_positive w'.
Proof.
  apply (positive_stock_kept_without_zero_adds
           [AddItem "2026-01-01" (VStr "apple") (VInt 10) None;
            RemoveItem (VStr "apple") (VInt 3); SaveData None;
            RemoveItem (VStr "apple") (VInt 7); LoadData None]
           {| files := ∅; stdout := [] |}); [reflexivity |].
  intros file text H. simpl in H. rewrite lookup_empty in H. discriminate.
Defined.




Lemma sublist_filter_weaken (P Q : string * Z -> bool) (d : dict) :
  (forall item, P item = true -> Q item = true) ->
  sublist (map fst (List.filter P d)) (map fst (List.filter Q d)).
Proof.
  intros HPQ. induction d as [|item d IH]; simpl; [constructor |].
  destruct (P item) eqn:EP.
  - rewrite (HPQ _ EP). simpl. now constructor.
  - destruct (Q item); simpl; [now constructor | assumption].
Qed.

Lemma check_low_items_filter (self : InventoryManager) (t : Z) :
  check_low_items self (Some t) =
  Call (Return (map fst (List.filter (fun item => snd item <? t)
                           (stock_data self)))) self.
Proof. unfold check_low_items. now rewrite low_items_loop. Qed.

Lemma sublist_filter_keys (P : string * Z -> bool) (d : dict) :
  sublist (map fst (List.filter P d)) (map fst d).
Proof.
  induction d as [|item d IH]; simpl; [constructor |].
  destruct (P item); simpl; now constructor.
Qed.

(** X12. The low-stock list grows with the threshold and follows the
    table: what [check_low_items(t)] reports is a subsequence of what
    [check_low_items(t')] reports for every [t' >= t], which is a
    subsequence of the table's keys. *)
Theorem check_low_items_monotone (self : InventoryManager) (t t' : Z) :
  t <= t' ->
  exists low low',
    check_low_items self (Some t) = Call (Return low) self /\
    check_low_items self (Some t') = Call (Return low') self /\
    sublist low low' /\ sublist low' (map fst (stock_data self)).
Proof.
  intros Hle. eexists _, _.
  split; [apply check_low_items_filter |].
  split; [apply check_low_items_filter |]. split.
  - apply sublist_filter_weaken. intros item H.
    apply Z.ltb_lt in H. apply Z.ltb_lt. lia.
  - apply sublist_filter_keys.
Qed.

Lemma check_low_items_monotone_witness :
  exists low low',
    check_low_items {| stock_data := [("apple", 10); ("banana", 3)] |} (Some 5)
      = Call (Return low) {| stock_data := [("apple", 10); ("banana", 3)] |} /\
    check_low_items {| stock_data := [("apple", 10); ("banana", 3)] |} (Some 11)
      = Call (Return low') {| stock_data := [("apple", 10); ("banana", 3)] |} /\
    sublist low low' /\ sublist low' ["apple"; "banana"]%string.
Proof.
  apply (check_low_items_monotone
           {| stock_data := [("apple", 10); ("banana", 3)] |} 5 11).
  lia.
Defined.

(** X13. The two ends of the threshold: when no quantity is below it,
    [check_low_items] reports nothing (so a threshold of 1 or less
    reports nothing on a table of positive quantities); when every
    quantity is below it, it reports every key, in order. *)
Theorem check_low_items_extremes (self : InventoryManager) (t : Z) :
  ((forall item, In item (stock_data self) -> t <= snd item) ->
   check_low_items self (Some t) = Call (Return []) self) /\
  ((forall item, In item (stock_data self) -> snd item < t) ->
   check_low_items self (Some t) =
   Call (Return (map fst (stock_data self))) self).
Proof.
  rewrite check_low_items_filter. split; intros H; do 2 f_equal.
  - induction (stock_data self) as [|item d IH]; simpl; [reflexivity |].
    destruct (snd item <? t) eqn:E.
    + apply Z.ltb_lt in E. specialize (H item (or_introl eq_refl)). lia.
    + apply IH. intros it Hit. apply H. now right.
  - induction (stock_data self) as [|item d IH]; simpl; [reflexivity |].
    destruct (snd item <? t) eqn:E.
    + simpl. f_equal. apply IH. intros it Hit. apply H. now right.
    + apply Z.ltb_ge in E. specialize (H item (or_introl eq_refl)). lia.
Qed.

Lemma check_low_items_extremes_witness :
  let self := {| stock_data := [("apple", 10); ("banana", 3)] |} in
  check_low_items self (Some 1) = Call (Return []) self /\
  check_low_items self (Some 11) =
    Call (Return ["apple"; "banana"]%string) self.
Proof.
  intros self.
  destruct (check_low_items_extremes self 1) as (Hnone & _).
  destruct (check_low_items_extremes self 11) as (_ & Hall).
  split.
  - apply Hnone. intros item [<- | [<- | []]]; simpl; lia.
  - apply Hall. intros item [<- | [<- | []]]; simpl; lia.
Defined.

End BehaviourFacts.

(* ===================================================================== *)
(** ** More on saving and loading *)
(* ===================================================================== *)

Module FileFacts.
Import Py Inventory DictFacts JsonFacts TableFacts PersistenceFacts InvariantFacts.

Lemma world_eq (w w' : world) :
  files w = files w' -> stdout w = stdout w' -> w = w'.
Proof. destruct w, w'. simpl. now intros -> ->. Qed.

(** X14. Saving is idempotent: once [save_data(path)] has completed,
    saving the same table to the same path again completes and leaves
    files and output exactly as they are. *)
Theorem save_data_twice (self : InventoryManager) (w : world)
    (file : option string) :
  result (fst (save_data self w file)) = Return tt ->
  save_data self (snd (save_data self w file)) file =
  (Call (Return tt) self, snd (save_data self w file)).
Proof.
  unfold save_data.
  destruct (files w !! match file with None => default_file | Some f => f end)
    as [[text| |]|] eqn:E; simpl; try discriminate; intros _;
    rewrite lookup_insert_eq; f_equal;
    apply world_eq; simpl; auto; apply insert_insert_eq.
Qed.

Lemma save_data_twice_witness :
  let self := {| stock_data := [("apple", 7)] |} in
  let w := {| files := ∅; stdout := [] |} in
  save_data self (snd (save_data self w None)) None =
  (Call (Return tt) self, snd (save_data self w None)).
Proof.
  intros self w. apply (save_data_twice self w None). reflexivity.
Defined.



(** X16. [load_data] replaces the table wholesale: when it returns, the
    table it leaves depends on the file alone, not on what the object
    held before; nothing is merged. *)
Theorem load_data_replaces (self other : InventoryManager) (w w' : world)
    (file : option string) (c : call unit) :
  load_data self w file = Completed c w' -> result c = Return tt ->
  load_data other w file = Completed (Call (Return tt) (after c)) w'.
Proof.
  unfold load_data.
  destruct (files w !! match file with None => default_file | Some f => f end)
    as [[text| |]|].
  - destruct (Json.loads text); intros [= <- <-]; try discriminate.
    reflexivity.
  - intros [= <- <-]. discriminate.
  - now intros [= <- <-].
  - now intros [= <- <-].
Qed.

Lemma load_data_replaces_witness :
  let w := {| files := {["inventory.json" := File "{}"]}; stdout := [] |} in
  load_data {| stock_data := [("apple", 7)] |} w None =
  Completed (Call (Return tt) {| stock_data := [] |}) w.
Proof.
  intros w.
  apply (load_data_replaces init {| stock_data := [("apple", 7)] |} w w None
           (Call (Return tt) {| stock_data := [] |})); reflexivity.
Defined.

(** X17. When the save fails, the pair save/load is no round trip: on a
    path below a missing directory [save_data] raises [OSError] and the
    following [load_data] returns with the table emptied; on a path that
    [open] refuses both raise [OSError] and the table is kept. *)
Theorem load_after_failed_save (self : InventoryManager) (w : world)
    (file : string) :
  (files w !! file = Some Orphan ->
   save_data self w (Some file) =
     (Call (Raise OSError) self, print (Error_saving file) w) /\
   load_data self (print (Error_saving file) w) (Some file) =
     Completed (Call (Return tt) {| stock_data := [] |})
               (print (Warning_not_found file) (print (Error_saving file) w))) /\
  (files w !! file = Some Denied ->
   save_data self w (Some file) =
     (Call (Raise OSError) self, print (Error_saving file) w) /\
   load_data self (print (Error_saving file) w) (Some file) =
     Completed (Call (Raise OSError) self) (print (Error_saving file) w)).
Proof.
  unfold save_data, load_data. simpl. split; intros ->; now split.
Qed.

Lemma load_after_failed_save_witness :
  let self := {| stock_data := [("apple", 7)] |} in
  let w := {| files := {["missing/inventory.json" := Orphan]}; stdout := [] |} in
  save_data self w (Some "missing/inventory.json") =
    (Call (Raise OSError) self, print (Error_saving "missing/inventory.json") w) /\
  load_data self (print (Error_saving "missing/inventory.json") w)
            (Some "missing/inventory.json") =
    Completed (Call (Return tt) {| stock_data := [] |})
              (print (Warning_not_found "missing/inventory.json")
                 (print (Error_saving "missing/inventory.json") w)).
Proof.
  intros self w.
  destruct (load_after_failed_save self w "missing/inventory.json")
    as (H & _).
  apply H. reflexivity.
Defined.

(** X18. Every table a sequence of calls reaches from the empty
    inventory is a dictionary, its keys pairwise distinct; so from
    there a [save_data] that completes followed by [load_data] on the
    same path always gives that table back. *)
Theorem reachable_table_round_trip (ops : list op) (w w' : world)
    (self other : InventoryManager) (file : option string) :
  run (init, w) ops = Some (self, w') ->
  wf (stock_data self) /\
  (result (fst (save_data self w' file)) = Return tt ->
   load_data other (snd (save_data self w' file)) file =
   Completed (Call (Return tt) self) (snd (save_data self w' file))).
Proof.
  intros Hrun.
  assert (Hwf : wf (stock_data self)).
  { apply (run_keeps_wf ops init self w w'); [apply NoDup_nil_2 | exact Hrun]. }
  split; [exact Hwf |].
  unfold save_data, load_data.
  destruct (files w' !! match file with None => default_file | Some f => f end)
    as [[text| |]|]; simpl; try discriminate; intros _;
    rewrite lookup_insert_eq, (loads_dumps _ Hwf); now destruct self.
Qed.

Lemma reachable_table_round_trip_witness :
  let w := {| files := ∅; stdout := [] |} in
  let self := {| stock_data := [("apple", 7); ("banana", 2)] |} in
  wf (stock_data self) /\
  (result (fst (save_data self w None)) = Return tt ->
   load_data init (snd (save_data self w None)) None =
   Completed (Call (Return tt) self) (snd (save_data self w None))).
Proof.
  intros w self.
  apply (reachable_table_round_trip
           [AddItem "2026-01-01" (VStr "apple") (VInt 10) None;
            AddItem "2026-01-02" (VStr "banana") (VInt 2) None;
            RemoveItem (VStr "apple") (VInt 3)] w w self init None).
  reflexivity.
Defined.

End FileFacts.

(* ===================================================================== *)
(** ** The report *)
(* ===================================================================== *)

Module ReportFacts.
Import Py Inventory DictFacts JsonFacts TableFacts PersistenceFacts InvariantFacts.

Lemma last_char_append (s t : string) :
  t <> EmptyString -> last_char (s ++ t) = last_char t.
Proof.
  intros Ht. induction s as [|c s IH]; [reflexivity |].
  rewrite append_String. cbn [last_char].
  destruct (s ++ t) as [|c' r] eqn:E; [| exact IH].
  destruct s; [| rewrite append_String in E; discriminate].
  now contradiction Ht.
Qed.

(** A character that is no decimal digit. *)
Lemma last_char_uint (u : uint) (c : ascii) :
  last_char (NilEmpty.string_of_uint u) = Some c ->
  uint_of_char c (Some Nil) <> None.
Proof.
  induction u; simpl NilEmpty.string_of_uint; [discriminate | ..];
    (destruct u;
     [ simpl; intros [= <-]; discriminate
     | cbn [last_char NilEmpty.string_of_uint] in *; exact IHu .. ]).
Qed.

Lemma last_char_str_of_Z (z : Z) (c : ascii) :
  last_char (str_of_Z z) = Some c -> uint_of_char c (Some Nil) <> None.
Proof.
  unfold str_of_Z. destruct z as [|p|p]; simpl Z.to_int.
  - simpl. intros [= <-]. discriminate.
  - unfold NilZero.string_of_int, NilZero.string_of_uint.
    pose proof (to_uint_head p) as H.
    destruct (Pos.to_uint p) eqn:E; try contradiction;
      apply last_char_uint.
  - unfold NilZero.string_of_int, NilZero.string_of_uint.
    pose proof (to_uint_head p) as H.
    destruct (Pos.to_uint p) eqn:E; try contradiction;
      (change (String "-" ?s) with ("-" ++ s)%string;
       rewrite last_char_append by discriminate; apply last_char_uint).
Qed.

Lemma last_char_some (s : string) :
  s <> EmptyString -> exists c, last_char s = Some c.
Proof.
  induction s as [|c s IH]; [intros H; now contradiction H |].
  intros _. destruct s as [|c' s]; [now exists c |].
  destruct IH as [c0 H0]; [discriminate |]. exists c0. exact H0.
Qed.

Lemma report_line_ends_in_digit (item : string * Z) :
  exists c, last_char (report_line item) = Some c /\
            uint_of_char c (Some Nil) <> None.
Proof.
  unfold report_line.
  destruct (str_of_Z_head (snd item)) as (c0 & s0 & E & _).
  assert (Hne : str_of_Z (snd item) <> EmptyString) by (rewrite E; discriminate).
  rewrite last_char_append by (rewrite append_String; discriminate).
  rewrite last_char_append by assumption.
  destruct (last_char_some _ Hne) as [c Hc]. exists c.
  split; [exact Hc |]. exact (last_char_str_of_Z _ _ Hc).
Qed.

(** No line of an item reads like the placeholder of the empty report. *)
Lemma report_line_not_placeholder (item : string * Z) :
  report_line item <> "Inventory is empty".
Proof.
  intros H. destruct (report_line_ends_in_digit item) as (c & Hc & Hd).
  rewrite H in Hc. simpl in Hc. injection Hc as <-. now apply Hd.
Qed.


End ReportFacts.

(* ===================================================================== *)
(** ** The demonstration *)
(* ===================================================================== *)

Module DemoFacts.
Import Py Inventory DictFacts JsonFacts TableFacts PersistenceFacts InvariantFacts.

Lemma printed_since_same (w : world) : printed_since w w = [].
Proof. unfold printed_since. now rewrite drop_all. Qed.

Lemma printed_since_print (l : line) (w : world) :
  printed_since w (print l w) = [Class l].
Proof. unfold printed_since, print. simpl. now rewrite drop_app_length. Qed.

Lemma printed_since_write (file text : string) (w : world) :
  printed_since w (write file text w) = [].
Proof. unfold printed_since, write. simpl. now rewrite drop_all. Qed.

(** The statements of [main] that work on the table alone. *)
Lemma main_in_memory (now : string) (w : world) (rest : demo -> flow) :
  and_then (say Banner {| inventory := init; outside := w; transcript := [] |})
    (fun st =>
  and_then
    (try_except
       (fst (add_item (inventory st) now (VStr "apple") (VInt 10) None))
       (outside st) (fun _ => Added_apples)
       [ValueError; TypeError] Error_adding_apples st) (fun st =>
  and_then
    (try_except
       (fst (add_item (inventory st) now (VStr "banana") (VInt (-2)) None))
       (outside st) (fun _ => Added_bananas)
       [ValueError] Error_adding_bananas st) (fun st =>
  and_then
    (try_except
       (fst (add_item (inventory st) now (VInt 123) (VStr "ten") None))
       (outside st) (fun _ => Added_invalid)
       [ValueError; TypeError] Error_adding_invalid st) (fun st =>
  and_then
    (try_except
       (remove_item (inventory st) (VStr "apple") (VInt 3))
       (outside st) (fun _ => Removed_apples)
       [KeyError; ValueError] Error_removing_apples st) (fun st =>
  and_then
    (try_except
       (remove_item (inventory st) (VStr "orange") (VInt 1))
       (outside st) (fun _ => Removed_orange)
       [KeyError] Error_removing_orange st) (fun st =>
  and_then
    (try_except
       (get_qty (inventory st) (VStr "apple"))
       (outside st) Apple_stock
       [KeyError] Error_getting_apple st) (fun st =>
  and_then
    (unguarded
       (check_low_items (inventory st) None)
       (outside st) (fun low_items => [Low_stock low_items]) st) rest))))))) =
  rest {| inventory := {| stock_data := [("apple", 7)] |};
          outside := w;
          transcript := [Banner; Added_apples; Error_adding_bananas;
                         Error_adding_invalid; Removed_apples;
                         Error_removing_orange; Apple_stock 7; Low_stock []] |}.
Proof.
  lazy -[printed_since app].
  rewrite !printed_since_same. reflexivity.
Qed.



End DemoFacts.
